(** * libhal-cmake-util: the Conan recipe [conanfile.py]

    A shallow embedding of the recipe class [libhal_cmake_util_conan] and
    of the few library operations its methods call, followed by the
    properties of the package descriptor and of the install manifest. *)

From Stdlib Require Import Ascii String.
From stdpp Require Import gmap strings list fin_maps.

(** ** Python strings and POSIX paths *)

Module Py.

(** The part of [p] after the prefix [pre], when [p] starts with it. *)
Fixpoint strip_prefix (pre p : string) : option string :=
  match pre, p with
  | EmptyString, _ => Some p
  | String a pre', String b p' =>
      if Ascii.eqb a b then strip_prefix pre' p' else None
  | String _ _, EmptyString => None
  end.

(** [str.startswith], and [str.endswith] for a one-character suffix. *)
Definition startswith (s p : string) : bool :=
  if strip_prefix p s is Some _ then true else false.

Fixpoint endswith_char (s : string) (c : ascii) : bool :=
  match s with
  | EmptyString => false
  | String a EmptyString => Ascii.eqb a c
  | String _ s' => endswith_char s' c
  end.

(** [str.lower], on the ASCII letters. *)
Definition lower_char (a : ascii) : ascii :=
  let n := nat_of_ascii a in
  if (65 <=? n) && (n <=? 90) then ascii_of_nat (n + 32) else a.

Fixpoint lower (s : string) : string :=
  match s with
  | EmptyString => EmptyString
  | String a s' => String (lower_char a) (lower s')
  end.

(** [str(b)] for a boolean, as an f-string prints it. *)
Definition str_bool (b : bool) : string := if b then "True" else "False".

(** [os.path.join(a, b)] of posixpath: an absolute [b] replaces [a]; a
    separator is inserted unless [a] is empty or already ends with one. *)
Definition path_join (a b : string) : string :=
  if startswith b "/" then b
  else if String.eqb a "" || endswith_char a "/" then a +:+ b
  else a +:+ "/" +:+ b.

(** [fnmatch.fnmatchcase(name, pat)] for patterns made of literal
    characters, [*] (any run of characters, separators included) and [?]
    (any one character): the whole name has to match. *)
Fixpoint fnmatchcase_pat (pat : string) : string -> bool :=
  match pat with
  | EmptyString => fun name => String.eqb name ""
  | String "*" pat' =>
      fix star (name : string) : bool :=
        fnmatchcase_pat pat' name ||
        match name with
        | EmptyString => false
        | String _ name' => star name'
        end
  | String "?" pat' => fun name =>
      match name with
      | EmptyString => false
      | String _ name' => fnmatchcase_pat pat' name'
      end
  | String c pat' => fun name =>
      match name with
      | EmptyString => false
      | String d name' => Ascii.eqb c d && fnmatchcase_pat pat' name'
      end
  end.

Definition fnmatchcase (name pat : string) : bool := fnmatchcase_pat pat name.

End Py.

(** ** The package descriptor *)

(** [options]: each option name with its allowed values. *)
Definition options : gmap string (list bool) :=
  {[ "add_build_outputs" := [true; false];
     "optimize_debug_build" := [true; false] ]}.

(** [default_options]. *)
Definition default_options : gmap string bool :=
  {[ "add_build_outputs" := true;
     "optimize_debug_build" := true ]}.

Inductive Error :=
  | UnknownOptionError (key : string).

(** Modelled from the spec: the recipe only declares [options] and
    [default_options]; the overlay of caller overrides onto the defaults is
    done by the Conan option machinery, which is not part of the recipe.
    Following section 4.1, every key of [overrides] has to be a key of the
    schema, otherwise resolution fails with [UnknownOptionError] and returns
    nothing else; a schema key absent from [overrides] keeps its default. *)
Definition resolveOptions (overrides : gmap string bool)
  : Error + gmap string bool :=
  match filter (fun k => bool_decide (options !! k = None))
               (map_to_list overrides).*1 with
  | [] => inr (overrides ∪ default_options)
  | k :: _ => inl (UnknownOptionError k)
  end.

(** ** The recipe object and the state its methods act on *)

(** Conan reports every failure of its tools as a [ConanException]. *)
Inductive Exception :=
  | ConanException (msg : string).

(** [self.options]: the resolved value of each declared option. *)
Record Options := {
  add_build_outputs : bool;
  optimize_debug_build : bool
}.

(** [self.info]: what the binary package identity is computed from. *)
Record ConanInfo := {
  info_settings : gmap string string;
  info_options : gmap string string;
  info_requires : list string;
  info_build_requires : list string;
  info_python_requires : list string;
  info_conf : gmap string string
}.

(** The attributes of [self] that the methods only read. *)
Record ConanFile := {
  settings : gmap string string;
  self_options : Options;
  source_folder : string;
  package_folder : string
}.

(** A call of [conan.tools.files.copy]: pattern, [src] and [dst]. *)
Record CopyCall := {
  call_pattern : string;
  call_src : string;
  call_dst : string
}.

(** What the methods change: [self.info], [self.conf_info], the lines sent
    to [self.output.info], the file system (contents of the regular files,
    by normalised absolute path) and the record of the [copy] calls made. *)
Record State := {
  info : ConanInfo;
  conf_info : gmap string (list string);
  output : list string;
  files : gmap string string;
  copy_calls : list CopyCall
}.

Definition set_info (i : ConanInfo) (s : State) : State :=
  {| info := i; conf_info := conf_info s; output := output s;
     files := files s; copy_calls := copy_calls s |}.

Definition set_conf_info (c : gmap string (list string)) (s : State) : State :=
  {| info := info s; conf_info := c; output := output s;
     files := files s; copy_calls := copy_calls s |}.

Definition set_output (o : list string) (s : State) : State :=
  {| info := info s; conf_info := conf_info s; output := o;
     files := files s; copy_calls := copy_calls s |}.

Definition set_files (f : gmap string string) (c : list CopyCall) (s : State)
  : State :=
  {| info := info s; conf_info := conf_info s; output := output s;
     files := f; copy_calls := c |}.

(** A method either returns or raises, and in both cases leaves a state
    behind: what was done before an exception stays done. *)
Inductive Outcome (A : Type) :=
  | Returned (a : A) (s : State)
  | Raised (e : Exception) (s : State).
Arguments Returned {A} a s.
Arguments Raised {A} e s.

Definition M (A : Type) : Type := State -> Outcome A.

#[global] Instance M_ret : MRet M := fun A a s => Returned a s.

#[global] Instance M_bind : MBind M := fun A B f m s =>
  match m s with
  | Returned a s' => f a s'
  | Raised e s' => Raised e s'
  end.

Definition final_state {A} (o : Outcome A) : State :=
  match o with
  | Returned _ s => s
  | Raised _ s => s
  end.

(** ** The library operations the recipe calls

    These belong to Conan 2 (the recipe asks for [>=2.0.6]), not to the
    recipe. Each is modelled after the behaviour the library documents, as
    far as the calls of the recipe depend on it. *)

(** [self.info.clear()]. *)
Definition info_clear : M unit := fun s =>
  Returned tt
    (set_info {| info_settings := ∅; info_options := ∅; info_requires := [];
                 info_build_requires := []; info_python_requires := [];
                 info_conf := ∅ |} s).

(** [self.conf_info.append(name, value)]: [value] goes to the end of the
    list kept under [name], which starts empty. *)
Definition conf_info_append (name value : string) : M unit := fun s =>
  Returned tt
    (set_conf_info
       (<[name := default [] (conf_info s !! name) ++ [value]]> (conf_info s))
       s).

(** [self.output.info(msg)]. *)
Definition output_info (msg : string) : M unit := fun s =>
  Returned tt (set_output (output s ++ [msg]) s).

(** The directory walk of [copy]: the files below [src'] (the source folder
    with its trailing separator) with their names relative to it, none of
    which starts with a separator. The walk does not descend into the
    destination folder when that lies inside the source tree: it skips [p]
    when [dst] is the top of the walk or a folder of the walk above [p]. *)
Definition walk_skips (src' dst p : string) : bool :=
  String.eqb dst src'
  || (Py.startswith dst src' && Py.startswith p (dst +:+ "/")).

Definition walk (src' dst : string) (fs : gmap string string)
  : list (string * string) :=
  omap (fun '(p, c) =>
          match Py.strip_prefix src' p with
          | Some rel =>
              if Py.startswith rel "/" || walk_skips src' dst p then None
              else Some (rel, c)
          | None => None
          end)
       (map_to_list fs).

(** The files [copy] selects: [ignore_case] is left at its default [True],
    so names and pattern are compared in lower case. *)
Definition files_to_copy (pattern src' dst : string) (fs : gmap string string)
  : list (string * string) :=
  filter (fun f => Py.fnmatchcase (Py.lower f.1) (Py.lower pattern) = true)
         (walk src' dst fs).

(** [copy(self, pattern, src, dst)] with [keep_path] at its default [True]:
    every selected file is written below [dst] under its relative name; the
    result is the list of the files written. Selecting no file is not an
    error. The file system is a flat map from paths to contents: failures
    of the operating system while writing (a regular file where a
    destination folder has to be made, missing permissions) have no
    counterpart here. *)
Definition copied_files (pattern src dst : string) (fs : gmap string string)
  : list (string * string) :=
  (fun f : string * string => (Py.path_join dst f.1, f.2))
    <$> files_to_copy pattern (Py.path_join src "") dst fs.

(** The state after a [copy] that went through: the files written, over
    what was there, and the call recorded. *)
Definition copy_done (pattern src dst : string) (s : State) : State :=
  set_files (list_to_map (copied_files pattern src dst (files s)) ∪ files s)
            (copy_calls s ++ [{| call_pattern := pattern;
                                 call_src := src; call_dst := dst |}])
            s.

Definition copy (pattern src dst : string) : M (list string) := fun s =>
  if String.eqb src dst then
    Raised (ConanException
              "copy() 'src' and 'dst' arguments must have different values") s
  else if Py.startswith pattern ".." then
    Raised
      (ConanException
         "copy() it is not possible to use relative patterns starting with '..'")
      s
  else
    Returned (copied_files pattern src dst (files s)).*1
             (copy_done pattern src dst s).

(** ** The methods of [libhal_cmake_util_conan] *)

Definition package_id : M unit := info_clear.

Definition package (self : ConanFile) : M unit :=
  copy "LICENSE" (source_folder self)
       (Py.path_join (package_folder self) "licenses") ;;
  copy "cmake/*.cmake" (source_folder self) (package_folder self) ;;
  copy "cmake/*.conf" (source_folder self) (package_folder self) ;;
  mret tt.

Definition user_toolchain : string :=
  "tools.cmake.cmaketoolchain:user_toolchain".

Definition package_info (self : ConanFile) : M unit :=
  let build_outputs_path :=
    Py.path_join (package_folder self) "cmake/build_outputs.cmake" in
  let optimize_debug_build_path :=
    Py.path_join (package_folder self) "cmake/optimize_debug_build.cmake" in
  let build_path :=
    Py.path_join (package_folder self) "cmake/build.cmake" in
  let colors_path :=
    Py.path_join (package_folder self) "cmake/colors.cmake" in
  let clang_tidy_config_path :=
    Py.path_join (package_folder self) "cmake/clang-tidy.conf" in
  (if add_build_outputs (self_options self)
   then conf_info_append user_toolchain build_outputs_path
   else mret tt) ;;
  (if optimize_debug_build (self_options self)
   then conf_info_append user_toolchain optimize_debug_build_path
   else mret tt) ;;
  conf_info_append user_toolchain colors_path ;;
  conf_info_append user_toolchain build_path ;;
  output_info ("clang_tidy_config_path: " +:+ clang_tidy_config_path) ;;
  output_info ("add_build_outputs: "
               +:+ Py.str_bool (add_build_outputs (self_options self))) ;;
  output_info ("optimize_debug_build: "
               +:+ Py.str_bool (optimize_debug_build (self_options self))).

(** ** The install manifest *)

(** The state a method starts from on a fresh recipe object: [self.info]
    mirrors the settings and option values, nothing is published or printed
    yet, and no [copy] has been made. *)
Definition initial_state (self : ConanFile) (fs : gmap string string) : State :=
  {| info :=
       {| info_settings := settings self;
          info_options :=
            {[ "add_build_outputs" :=
                 Py.str_bool (add_build_outputs (self_options self));
               "optimize_debug_build" :=
                 Py.str_bool (optimize_debug_build (self_options self)) ]};
          info_requires := []; info_build_requires := [];
          info_python_requires := []; info_conf := ∅ |};
     conf_info := ∅; output := []; files := fs; copy_calls := [] |}.

(** The two halves of the manifest, read off a state: the [copy] calls made,
    and the fragments published under [user_toolchain]. *)
Definition copySet (s : State) : list CopyCall := copy_calls s.

Definition publishList (s : State) : list string :=
  default [] (conf_info s !! user_toolchain).

(** [resolveManifest]: [package] followed by [package_info], on a fresh
    recipe object over the file system [fs]. *)
Definition resolveManifest (self : ConanFile) (fs : gmap string string)
  : Outcome unit :=
  (package self ;; package_info self) (initial_state self fs).

(** The source tree and the package tree share no path: the layout Conan
    gives a recipe, where the source folder and the package folder are
    separate folders of the cache. *)
Definition disjoint_trees (self : ConanFile) : Prop :=
  forall r1 r2 : string,
    Py.path_join (source_folder self) "" +:+ r1
    <> Py.path_join (package_folder self) "" +:+ r2.

(** ** A concrete packaging run *)

(** A recipe object as Conan lays it out in its cache, and a source tree
    with the license, two scripts, the clang-tidy configuration and a file
    the recipe does not package. *)
Definition sample_self : ConanFile :=
  {| settings := ∅;
     self_options := {| add_build_outputs := true;
                        optimize_debug_build := false |};
     source_folder := "/cache/s";
     package_folder := "/cache/p" |}.

Definition sample_tree : gmap string string :=
  {[ "/cache/s/LICENSE" := "Apache-2.0";
     "/cache/s/cmake/build.cmake" := "# build";
     "/cache/s/cmake/colors.cmake" := "# colors";
     "/cache/s/cmake/clang-tidy.conf" := "Checks: *";
     "/cache/s/README.md" := "# readme" ]}.

(** The same tree without its license. *)
Definition unlicensed_tree : gmap string string :=
  delete "/cache/s/LICENSE" sample_tree.

(** ** The sources exported with the recipe *)

(** [exports_sources]: the patterns of the files Conan exports with the
    recipe, from which the source folder is filled. *)
Definition exports_sources : list string := ["cmake/*"; "LICENSE"].

(** The relative names of the fragments [package_info] publishes for the
    option values of [self], in publishing order. *)
Definition published_names (self : ConanFile) : list string :=
  (if add_build_outputs (self_options self)
   then ["cmake/build_outputs.cmake"] else [])
  ++ (if optimize_debug_build (self_options self)
      then ["cmake/optimize_debug_build.cmake"] else [])
  ++ ["cmake/colors.cmake"; "cmake/build.cmake"].

(** ** Further concrete runs *)

(** The sample tree with the build-outputs script as well. *)
Definition full_tree : gmap string string :=
  <["/cache/s/cmake/build_outputs.cmake" := "# outputs"]> sample_tree.

(** A recipe object whose package folder is its source folder, and one
    whose source folder is the [licenses] folder of its package. *)
Definition inplace_self : ConanFile :=
  {| settings := ∅;
     self_options := {| add_build_outputs := true;
                        optimize_debug_build := true |};
     source_folder := "/cache/s";
     package_folder := "/cache/s" |}.

Definition nested_self : ConanFile :=
  {| settings := ∅;
     self_options := {| add_build_outputs := true;
                        optimize_debug_build := true |};
     source_folder := "/cache/p/licenses";
     package_folder := "/cache/p" |}.

(** The state [package] leaves when its three copies went through. *)
Definition packaged (self : ConanFile) (s : State) : State :=
  copy_done "cmake/*.conf" (source_folder self) (package_folder self)
    (copy_done "cmake/*.cmake" (source_folder self) (package_folder self)
       (copy_done "LICENSE" (source_folder self)
          (Py.path_join (package_folder self) "licenses") s)).

(** A pattern without the wildcards [*] and [?] that the recipe's patterns
    are made of. *)
Fixpoint no_wildcard (pat : string) : bool :=
  match pat with
  | EmptyString => true
  | String c pat' =>
      negb (Ascii.eqb c "*") && negb (Ascii.eqb c "?") && no_wildcard pat'
  end.

(** ** Properties of the package descriptor *)

Section descriptor.
Implicit Types (overrides : gmap string bool) (k : string).

Lemma dom_options :
  dom options
  = ({[ "add_build_outputs"; "optimize_debug_build" ]} : gset string).
Proof. unfold options. rewrite dom_insert_L, dom_singleton_L. done. Qed.

Lemma dom_default_options : dom default_options = dom options.
Proof.
  rewrite dom_options. unfold default_options.
  rewrite dom_insert_L, dom_singleton_L. done.
Qed.

(** The keys rejected by [resolveOptions] are the keys of [overrides] that
    the schema does not have. *)
Lemma unknown_keys_spec overrides k :
  k ∈ filter (fun k => bool_decide (options !! k = None))
             (map_to_list overrides).*1
  ↔ is_Some (overrides !! k) ∧ options !! k = None.
Proof.
  rewrite list_elem_of_filter, bool_decide_spec, list_elem_of_fmap.
  split.
  - intros [Hk [[k' v] [-> Hin]]]. apply elem_of_map_to_list in Hin.
    split; [by exists v | done].
  - intros [[v Hv] Hk]. split; [done|].
    exists (k, v). split; [done|]. by apply elem_of_map_to_list.
Qed.

Lemma resolveOptions_valid overrides :
  dom overrides ⊆ dom options →
  resolveOptions overrides = inr (overrides ∪ default_options).
Proof.
  intros Hsub. unfold resolveOptions.
  destruct (filter _ _) as [|k l] eqn:Hf; [done|].
  assert (Hk : k ∈ k :: l) by apply list_elem_of_here.
  rewrite <- Hf in Hk. apply unknown_keys_spec in Hk as [Hin Hnone].
  apply elem_of_dom, Hsub, elem_of_dom in Hin. rewrite Hnone in Hin.
  by destruct Hin.
Qed.

(** C3: an override on a key outside the option schema makes
    [resolveOptions] fail with [UnknownOptionError]; the failure names an
    offending key and carries no resolved mapping. *)
Theorem resolveOptions_unknown_option overrides k :
  is_Some (overrides !! k) →
  options !! k = None →
  ∃ k', resolveOptions overrides = inl (UnknownOptionError k')
        ∧ is_Some (overrides !! k') ∧ options !! k' = None.
Proof.
  intros Hin Hnone. unfold resolveOptions.
  destruct (filter _ _) as [|k' l] eqn:Hf.
  - assert (Hk : k ∈ filter (fun k => bool_decide (options !! k = None))
                        (map_to_list overrides).*1)
      by (by apply unknown_keys_spec).
    rewrite Hf in Hk. by apply not_elem_of_nil in Hk.
  - exists k'. split; [done|]. apply unknown_keys_spec.
    rewrite Hf. apply list_elem_of_here.
Qed.

Lemma resolveOptions_unknown_option_witness :
  ∃ k', resolveOptions {[ "bogus" := true ]} = inl (UnknownOptionError k')
        ∧ is_Some (({[ "bogus" := true ]} : gmap string bool) !! k')
        ∧ options !! k' = None.
Proof.
  apply (resolveOptions_unknown_option {[ "bogus" := true ]} "bogus").
  - rewrite lookup_singleton_eq. by eexists.
  - vm_compute. reflexivity.
Defined.

(** C4: with no override, [resolveOptions] returns the declared defaults,
    in which both options are true. *)
Theorem resolveOptions_empty :
  resolveOptions ∅ = inr default_options
  ∧ default_options
    = {[ "add_build_outputs" := true; "optimize_debug_build" := true ]}.
Proof.
  split; [|done].
  rewrite resolveOptions_valid by (rewrite dom_empty_L; apply empty_subseteq).
  by rewrite (left_id_L ∅ (∪)).
Qed.

(** C5: when every key of [overrides] is a schema key, [resolveOptions]
    returns a mapping over exactly the schema keys, with the overridden
    value on each key of [overrides] and the default on every other. *)
Theorem resolveOptions_total overrides :
  dom overrides ⊆ dom options →
  ∃ resolved,
    resolveOptions overrides = inr resolved
    ∧ dom resolved = dom options
    ∧ (∀ k v, overrides !! k = Some v → resolved !! k = Some v)
    ∧ (∀ k, k ∈ dom options → overrides !! k = None →
            resolved !! k = default_options !! k
            ∧ is_Some (default_options !! k)).
Proof.
  intros Hsub. exists (overrides ∪ default_options).
  split; [by apply resolveOptions_valid|]. split; [|split].
  - rewrite dom_union_L, dom_default_options. by apply subseteq_union_1_L.
  - intros k v Hk. by apply lookup_union_Some_l.
  - intros k Hk Hnone. split; [by apply lookup_union_r|].
    apply elem_of_dom. by rewrite dom_default_options.
Qed.

Lemma resolveOptions_total_witness :
  dom ({[ "optimize_debug_build" := false ]} : gmap string bool) ⊆ dom options
  ∧ ∃ resolved,
    resolveOptions {[ "optimize_debug_build" := false ]} = inr resolved
    ∧ dom resolved = dom options
    ∧ (∀ k v, ({[ "optimize_debug_build" := false ]} : gmap string bool) !! k
              = Some v → resolved !! k = Some v)
    ∧ (∀ k, k ∈ dom options →
            ({[ "optimize_debug_build" := false ]} : gmap string bool) !! k
            = None →
            resolved !! k = default_options !! k
            ∧ is_Some (default_options !! k)).
Proof.
  assert (H : dom ({[ "optimize_debug_build" := false ]} : gmap string bool)
              ⊆ dom options)
    by (rewrite dom_singleton_L, dom_options;
        apply singleton_subseteq_l, elem_of_union_r, elem_of_singleton;
        reflexivity).
  split; [exact H|].
  exact (resolveOptions_total {[ "optimize_debug_build" := false ]} H).
Defined.

End descriptor.

(** ** Properties of [package_info] and [package_id] *)

Section publish.
Implicit Types (self : ConanFile) (s : State).

Lemma conf_info_append_publishList v s :
  publishList (final_state (conf_info_append user_toolchain v s))
  = publishList s ++ [v].
Proof.
  unfold publishList, conf_info_append. simpl.
  by rewrite lookup_insert_eq.
Qed.

(** What one run of [package_info] leaves behind, field by field. *)
Lemma package_info_returns self s :
  ∃ s', package_info self s = Returned tt s'
    ∧ publishList s'
      = publishList s
        ++ (if add_build_outputs (self_options self)
            then [Py.path_join (package_folder self) "cmake/build_outputs.cmake"]
            else [])
        ++ (if optimize_debug_build (self_options self)
            then [Py.path_join (package_folder self)
                    "cmake/optimize_debug_build.cmake"]
            else [])
        ++ [Py.path_join (package_folder self) "cmake/colors.cmake";
            Py.path_join (package_folder self) "cmake/build.cmake"]
    ∧ (∀ name, name ≠ user_toolchain →
               conf_info s' !! name = conf_info s !! name)
    ∧ output s'
      = output s
        ++ ["clang_tidy_config_path: "
              +:+ Py.path_join (package_folder self) "cmake/clang-tidy.conf";
            "add_build_outputs: "
              +:+ Py.str_bool (add_build_outputs (self_options self));
            "optimize_debug_build: "
              +:+ Py.str_bool (optimize_debug_build (self_options self))]
    ∧ files s' = files s ∧ copy_calls s' = copy_calls s ∧ info s' = info s.
Proof.
  unfold package_info, mbind, M_bind, mret, M_ret.
  destruct (add_build_outputs (self_options self)),
    (optimize_debug_build (self_options self));
    unfold conf_info_append, output_info; simpl;
    (eexists; split; [reflexivity|]); unfold publishList; simpl;
    rewrite ?lookup_insert_eq; simpl;
    (split; [by rewrite <- ?app_assoc|]);
    (split; [by intros name Hne; rewrite ?lookup_insert_ne|]);
    by rewrite <- ?app_assoc.
Qed.

End publish.

(** ** Facts about strings and paths *)

Section paths.
Implicit Types (a b p r s t : string).

Lemma app_cons (c : ascii) s t : String c s +:+ t = String c (s +:+ t).
Proof. reflexivity. Qed.

Lemma app_empty_l s : "" +:+ s = s.
Proof. reflexivity. Qed.

Lemma app_empty_r s : s +:+ "" = s.
Proof. induction s as [|c s IH]; [done|]. by rewrite app_cons, IH. Qed.

Lemma app_assoc_s s t r : (s +:+ t) +:+ r = s +:+ t +:+ r.
Proof. induction s as [|c s IH]; [done|]. by rewrite !app_cons, IH. Qed.

Lemma strip_prefix_Some a p r : Py.strip_prefix a p = Some r ↔ p = a +:+ r.
Proof.
  revert p. induction a as [|c a IH]; intros p; simpl.
  - split; [by intros [= ->] | by intros ->].
  - destruct p as [|d p]; [done|].
    destruct (Ascii.eqb_spec c d) as [->|Hne].
    + rewrite IH, app_cons. split; [by intros -> | by intros [= ->]].
    + rewrite app_cons. split; [done | by intros [= -> _]].
Qed.

Lemma startswith_true s a : Py.startswith s a = true ↔ ∃ r, s = a +:+ r.
Proof.
  unfold Py.startswith.
  destruct (Py.strip_prefix a s) as [r|] eqn:Hs.
  - apply strip_prefix_Some in Hs. split; [by exists r | done].
  - split; [done|]. intros [r Hr]. apply strip_prefix_Some in Hr. congruence.
Qed.

Lemma startswith_false s a :
  Py.startswith s a = false ↔ ∀ r, s ≠ a +:+ r.
Proof.
  rewrite <- not_true_iff_false, startswith_true. split.
  - intros Hn r Hr. apply Hn. by exists r.
  - intros Hn [r Hr]. by apply (Hn r).
Qed.

Lemma endswith_char_app s t c :
  t ≠ "" → Py.endswith_char (s +:+ t) c = Py.endswith_char t c.
Proof.
  intros Ht. induction s as [|d s IH]; [done|].
  rewrite app_cons. simpl. rewrite IH.
  destruct (s +:+ t) as [|e u] eqn:Hu; [|done].
  destruct s; [by rewrite app_empty_l in Hu | by rewrite app_cons in Hu].
Qed.

(** Below a folder, [os.path.join] only appends: a relative name goes
    after the folder with its trailing separator. *)
Lemma path_join_relative a r :
  Py.startswith r "/" = false →
  Py.path_join a r = Py.path_join a "" +:+ r.
Proof.
  intros Hr. unfold Py.path_join. rewrite Hr.
  change (Py.startswith "" "/") with false. cbv iota.
  destruct (String.eqb a "" || Py.endswith_char a "/").
  - by rewrite app_empty_r.
  - by rewrite !app_assoc_s.
Qed.

Lemma path_join_licenses a :
  Py.path_join (Py.path_join a "licenses") "" = Py.path_join a "" +:+ "licenses/".
Proof.
  rewrite (path_join_relative a "licenses") by done.
  set (a' := Py.path_join a "").
  unfold Py.path_join. change (Py.startswith "" "/") with false. cbv iota.
  rewrite endswith_char_app by done.
  replace (String.eqb (a' +:+ "licenses") "") with false.
  - cbn [orb Py.endswith_char]. by rewrite !app_assoc_s.
  - symmetry. apply String.eqb_neq. by destruct a'.
Qed.

Lemma path_join_inj a r r' :
  Py.startswith r "/" = false → Py.startswith r' "/" = false →
  Py.path_join a r = Py.path_join a r' → r = r'.
Proof.
  intros Hr Hr'.
  rewrite (path_join_relative a r), (path_join_relative a r') by done.
  apply (inj (String.app _)).
Qed.

End paths.

(** ** Facts about [copy] *)

Section copying.
Implicit Types (pattern src dst rel p q c : string).
Implicit Types (fs : gmap string string) (s : State).

Lemma walk_spec src' dst fs rel c :
  (rel, c) ∈ walk src' dst fs
  ↔ fs !! (src' +:+ rel) = Some c
    ∧ Py.startswith rel "/" = false
    ∧ walk_skips src' dst (src' +:+ rel) = false.
Proof.
  unfold walk. rewrite list_elem_of_omap. split.
  - intros [[p c'] [Hin Hf]]. apply elem_of_map_to_list in Hin.
    destruct (Py.strip_prefix src' p) as [rel'|] eqn:Hp; [|done].
    apply strip_prefix_Some in Hp as ->.
    destruct (Py.startswith rel' "/") eqn:Hs; [done|].
    destruct (walk_skips _ _ _) eqn:Hw; [done|].
    by simplify_eq/=.
  - intros (Hfs & Hs & Hw). exists (src' +:+ rel, c).
    split; [by apply elem_of_map_to_list|].
    assert (Py.strip_prefix src' (src' +:+ rel) = Some rel) as ->
      by (by apply strip_prefix_Some).
    by rewrite Hs, Hw.
Qed.

Lemma files_to_copy_spec pattern src' dst fs rel c :
  (rel, c) ∈ files_to_copy pattern src' dst fs
  ↔ Py.fnmatchcase (Py.lower rel) (Py.lower pattern) = true
    ∧ fs !! (src' +:+ rel) = Some c
    ∧ Py.startswith rel "/" = false
    ∧ walk_skips src' dst (src' +:+ rel) = false.
Proof.
  unfold files_to_copy. by rewrite list_elem_of_filter, walk_spec.
Qed.

Lemma copied_files_spec pattern src dst fs q c :
  (q, c) ∈ copied_files pattern src dst fs
  ↔ ∃ rel, q = Py.path_join dst rel
           ∧ (rel, c) ∈ files_to_copy pattern (Py.path_join src "") dst fs.
Proof.
  unfold copied_files. rewrite list_elem_of_fmap. split.
  - intros [[rel c'] [[= -> ->] Hin]]. by exists rel.
  - intros [rel [-> Hin]]. by exists (rel, c).
Qed.

(** A destination is written with the contents of one source file. *)
Lemma copied_files_lookup pattern src dst fs rel c :
  (rel, c) ∈ files_to_copy pattern (Py.path_join src "") dst fs →
  (list_to_map (copied_files pattern src dst fs) : gmap string string)
    !! Py.path_join dst rel = Some c.
Proof.
  intros Hin. apply elem_of_list_to_map_1'.
  - intros c' [rel' [Heq Hin']]%copied_files_spec.
    apply files_to_copy_spec in Hin as (_ & Hfs & Hs & _).
    apply files_to_copy_spec in Hin' as (_ & Hfs' & Hs' & _).
    apply path_join_inj in Heq as ->; [congruence | done | done].
  - apply copied_files_spec. by exists rel.
Qed.

Lemma copy_returns pattern src dst s :
  src ≠ dst → Py.startswith pattern ".." = false →
  copy pattern src dst s
  = Returned (copied_files pattern src dst (files s)).*1
             (copy_done pattern src dst s).
Proof.
  intros Hne Hp. unfold copy. rewrite Hp.
  by apply String.eqb_neq in Hne as ->.
Qed.

(** [copy] writes a selected file under its relative name below [dst]. *)
Lemma copy_writes pattern src dst s rel c :
  (rel, c) ∈ files_to_copy pattern (Py.path_join src "") dst (files s) →
  files (copy_done pattern src dst s) !! Py.path_join dst rel = Some c.
Proof. intros Hin. by apply lookup_union_Some_l, copied_files_lookup. Qed.

(** [copy] keeps a file that no selected file is written over with other
    contents. *)
Lemma copy_keeps pattern src dst s q c :
  files s !! q = Some c →
  (∀ rel c',
      (rel, c') ∈ files_to_copy pattern (Py.path_join src "") dst (files s) →
      q = Py.path_join dst rel → c' = c) →
  files (copy_done pattern src dst s) !! q = Some c.
Proof.
  intros Hq Hsame. apply lookup_union_Some_raw.
  destruct (list_to_map _ !! q) as [c'|] eqn:Hl; [left | by right].
  apply elem_of_list_to_map_2, copied_files_spec in Hl as [rel [-> Hin]].
  f_equal. by eapply Hsame.
Qed.

(** [copy] changes nothing outside the paths it writes. *)
Lemma copy_untouched pattern src dst s q :
  (∀ rel c',
      (rel, c') ∈ files_to_copy pattern (Py.path_join src "") dst (files s) →
      q ≠ Py.path_join dst rel) →
  files (copy_done pattern src dst s) !! q = files s !! q.
Proof.
  intros Hother. simpl. rewrite lookup_union.
  destruct (list_to_map _ !! q) as [c'|] eqn:Hl.
  - apply elem_of_list_to_map_2, copied_files_spec in Hl as [rel [-> Hin]].
    by destruct (Hother _ _ Hin).
  - by rewrite (left_id None _).
Qed.

(** A pattern that selects no file leaves the file system as it is. *)
Lemma copy_nothing pattern src dst s :
  files_to_copy pattern (Py.path_join src "") dst (files s) = [] →
  files (copy_done pattern src dst s) = files s.
Proof.
  intros Hnil. simpl. unfold copied_files. rewrite Hnil. simpl.
  by rewrite (left_id_L ∅ (∪)).
Qed.

End copying.

(** ** Copying between two disjoint trees *)

Section disjoint_copy.
Variables (src dst : string).
Hypothesis Hdisj :
  ∀ r1 r2 : string, Py.path_join src "" +:+ r1 ≠ Py.path_join dst "" +:+ r2.

Implicit Types (pattern rel c : string) (s : State).

Lemma path_join_empty (a : string) : ∃ x, Py.path_join a "" = a +:+ x.
Proof.
  unfold Py.path_join. change (Py.startswith "" "/") with false. cbv iota.
  destruct (_ || _); eauto.
Qed.

Lemma disjoint_ne : src ≠ dst.
Proof. intros ->. by apply (Hdisj "" ""). Qed.

Lemma disjoint_not_inside : Py.startswith dst (Py.path_join src "") = false.
Proof.
  apply startswith_false. intros r Hr.
  destruct (path_join_empty dst) as [x Hx].
  apply (Hdisj (r +:+ x) ""). by rewrite app_empty_r, Hx, Hr, app_assoc_s.
Qed.

Lemma disjoint_walk_skips (p : string) :
  walk_skips (Py.path_join src "") dst p = false.
Proof.
  unfold walk_skips. rewrite disjoint_not_inside.
  destruct (String.eqb_spec dst (Py.path_join src "")) as [Heq|]; [|done].
  pose proof disjoint_not_inside as Hn.
  rewrite startswith_false in Hn. destruct (Hn "").
  by rewrite app_empty_r.
Qed.

Lemma disjoint_selected pattern (fs : gmap string string) rel c :
  (rel, c) ∈ files_to_copy pattern (Py.path_join src "") dst fs
  ↔ Py.fnmatchcase (Py.lower rel) (Py.lower pattern) = true
    ∧ fs !! (Py.path_join src "" +:+ rel) = Some c
    ∧ Py.startswith rel "/" = false.
Proof.
  rewrite files_to_copy_spec, disjoint_walk_skips.
  split; [by intros (? & ? & ? & _) | by intros (? & ? & ?)].
Qed.

(** The source tree is read, never written. *)
Lemma disjoint_source_kept pattern s rel :
  files (copy_done pattern src dst s) !! (Py.path_join src "" +:+ rel)
  = files s !! (Py.path_join src "" +:+ rel).
Proof.
  apply copy_untouched. intros rel' c' Hin Heq.
  apply disjoint_selected in Hin as (_ & _ & Hs).
  rewrite (path_join_relative dst rel') in Heq by done.
  by apply Hdisj in Heq.
Qed.

(** A selected file is mirrored under [dst]. *)
Lemma disjoint_copy_mirrors pattern s rel c :
  Py.fnmatchcase (Py.lower rel) (Py.lower pattern) = true →
  Py.startswith rel "/" = false →
  files s !! (Py.path_join src "" +:+ rel) = Some c →
  files (copy_done pattern src dst s) !! Py.path_join dst rel = Some c.
Proof.
  intros Hm Hs Hfs. apply copy_writes. by apply disjoint_selected.
Qed.

(** A mirrored file stays mirrored through a further copy. *)
Lemma disjoint_copy_keeps_mirror pattern s rel c :
  Py.startswith rel "/" = false →
  files s !! (Py.path_join src "" +:+ rel) = Some c →
  files s !! Py.path_join dst rel = Some c →
  files (copy_done pattern src dst s) !! Py.path_join dst rel = Some c.
Proof.
  intros Hs Hfs Hq. apply copy_keeps; [done|].
  intros rel' c' (_ & Hfs' & Hs')%disjoint_selected Heq.
  apply path_join_inj in Heq as <-; [congruence | done | done].
Qed.

End disjoint_copy.

(** ** Facts about [package] *)

Section packaging.
Implicit Types (self : ConanFile) (s : State) (rel c : string).

Lemma package_returns self s :
  source_folder self ≠ package_folder self →
  source_folder self ≠ Py.path_join (package_folder self) "licenses" →
  package self s
  = Returned tt
      (copy_done "cmake/*.conf" (source_folder self) (package_folder self)
         (copy_done "cmake/*.cmake" (source_folder self) (package_folder self)
            (copy_done "LICENSE" (source_folder self)
               (Py.path_join (package_folder self) "licenses") s))).
Proof.
  intros Hpkg Hlic. unfold package, mbind, M_bind.
  by rewrite !copy_returns.
Qed.

Lemma disjoint_trees_package self :
  disjoint_trees self →
  ∀ r1 r2 : string,
    Py.path_join (source_folder self) "" +:+ r1
    ≠ Py.path_join (package_folder self) "" +:+ r2.
Proof. done. Qed.

Lemma disjoint_trees_licenses self :
  disjoint_trees self →
  ∀ r1 r2 : string,
    Py.path_join (source_folder self) "" +:+ r1
    ≠ Py.path_join (Py.path_join (package_folder self) "licenses") "" +:+ r2.
Proof.
  intros Hd r1 r2. rewrite path_join_licenses, app_assoc_s. apply Hd.
Qed.

Lemma disjoint_trees_returns self s :
  disjoint_trees self →
  package self s
  = Returned tt
      (copy_done "cmake/*.conf" (source_folder self) (package_folder self)
         (copy_done "cmake/*.cmake" (source_folder self) (package_folder self)
            (copy_done "LICENSE" (source_folder self)
               (Py.path_join (package_folder self) "licenses") s))).
Proof.
  intros Hd. apply package_returns.
  - by apply disjoint_ne, disjoint_trees_package.
  - by apply disjoint_ne, disjoint_trees_licenses.
Qed.

(** A name matched by a pattern that begins with a letter does not begin
    with a separator. *)
Lemma cmake_match_relative rel (pat : string) :
  Py.fnmatchcase (Py.lower rel) (String "c" pat) = true →
  Py.startswith rel "/" = false.
Proof.
  destruct rel as [|a rel]; [done|]. unfold Py.startswith.
  change (Py.strip_prefix "/" (String a rel))
    with (if Ascii.eqb "/" a then Py.strip_prefix "" rel else None).
  destruct (Ascii.eqb_spec "/" a) as [<-|]; [|done].
  intros Hm. cbn in Hm. discriminate.
Qed.

(** The three copies mirror every script selected by [pattern], one of the
    two script patterns, into the package folder. *)
Lemma package_mirrors_script self s rel c :
  disjoint_trees self →
  Py.fnmatchcase (Py.lower rel) "cmake/*.cmake" = true
  ∨ Py.fnmatchcase (Py.lower rel) "cmake/*.conf" = true →
  files s !! (Py.path_join (source_folder self) "" +:+ rel) = Some c →
  ∃ s', package self s = Returned tt s'
        ∧ files s' !! Py.path_join (package_folder self) rel = Some c.
Proof.
  intros Hd Hm Hfs. rewrite disjoint_trees_returns by done.
  eexists; split; [reflexivity|].
  pose proof (disjoint_trees_package _ Hd) as Hp.
  pose proof (disjoint_trees_licenses _ Hd) as Hl.
  assert (Hrel : Py.startswith rel "/" = false)
    by (destruct Hm as [Hm|Hm]; by apply cmake_match_relative in Hm).
  destruct Hm as [Hm|Hm].
  - apply disjoint_copy_keeps_mirror; [done | done | |].
    + by rewrite !disjoint_source_kept.
    + apply disjoint_copy_mirrors; [done | done | done |].
      by rewrite disjoint_source_kept.
  - apply disjoint_copy_mirrors; [done | done | done |].
    by rewrite !disjoint_source_kept.
Qed.

(** The license lands in the [licenses] folder of the package. *)
Lemma package_copies_license self s c :
  disjoint_trees self →
  files s !! (Py.path_join (source_folder self) "" +:+ "LICENSE") = Some c →
  ∃ s', package self s = Returned tt s'
        ∧ files s' !! Py.path_join
                        (Py.path_join (package_folder self) "licenses")
                        "LICENSE" = Some c.
Proof.
  intros Hd Hfs. rewrite disjoint_trees_returns by done.
  eexists; split; [reflexivity|].
  pose proof (disjoint_trees_package _ Hd) as Hp.
  pose proof (disjoint_trees_licenses _ Hd) as Hl.
  assert (Hq : Py.path_join (Py.path_join (package_folder self) "licenses")
                 "LICENSE"
               = Py.path_join (package_folder self) "licenses/LICENSE").
  { rewrite (path_join_relative _ "LICENSE") by done.
    rewrite path_join_licenses, app_assoc_s.
    by rewrite (path_join_relative _ "licenses/LICENSE") by done. }
  assert (Hother : ∀ pattern t rel c',
    Py.fnmatchcase "licenses/license" (Py.lower pattern) = false →
    (rel, c') ∈ files_to_copy pattern (Py.path_join (source_folder self) "")
                  (package_folder self) (files t) →
    Py.path_join (Py.path_join (package_folder self) "licenses") "LICENSE"
    = Py.path_join (package_folder self) rel → c' = c).
  { intros pattern t rel c' Hno (Hm & _ & Hs)%disjoint_selected Heq;
      [|done].
    rewrite Hq in Heq. apply path_join_inj in Heq as <-; [|done|done].
    change (Py.lower "licenses/LICENSE") with "licenses/license" in Hm.
    congruence. }
  apply copy_keeps.
  - apply copy_keeps.
    + apply disjoint_copy_mirrors; done.
    + intros rel c'. by apply Hother.
  - intros rel c'. by apply Hother.
Qed.

End packaging.

(** ** The outcome of [package] *)

Section outcome.
Implicit Types (self : ConanFile) (s t : State).

Lemma copy_done_files pattern src dst s t :
  files s = files t →
  files (copy_done pattern src dst s) = files (copy_done pattern src dst t).
Proof. simpl. by intros ->. Qed.

(** [package] either makes its three copies, or stops at the first whose
    source and destination folders are the same. *)
Lemma package_outcome self s :
  (source_folder self ≠ Py.path_join (package_folder self) "licenses"
   ∧ source_folder self ≠ package_folder self
   ∧ package self s
     = Returned tt
         (copy_done "cmake/*.conf" (source_folder self) (package_folder self)
            (copy_done "cmake/*.cmake" (source_folder self)
               (package_folder self)
               (copy_done "LICENSE" (source_folder self)
                  (Py.path_join (package_folder self) "licenses") s))))
  ∨ (source_folder self = Py.path_join (package_folder self) "licenses"
     ∧ ∃ e, package self s = Raised e s)
  ∨ (source_folder self ≠ Py.path_join (package_folder self) "licenses"
     ∧ source_folder self = package_folder self
     ∧ ∃ e, package self s
            = Raised e (copy_done "LICENSE" (source_folder self)
                          (Py.path_join (package_folder self) "licenses") s)).
Proof.
  destruct (decide (source_folder self
                    = Py.path_join (package_folder self) "licenses"))
    as [Hlic|Hlic].
  - right; left. split; [done|]. unfold package, mbind, M_bind, copy.
    apply String.eqb_eq in Hlic as ->. eauto.
  - destruct (decide (source_folder self = package_folder self))
      as [Hpkg|Hpkg].
    + right; right. split; [done|]. split; [done|].
      unfold package, mbind, M_bind. rewrite copy_returns by done.
      unfold copy. apply String.eqb_eq in Hpkg as ->. eauto.
    + left. split; [done|]. split; [done|]. by apply package_returns.
Qed.

(** [package] publishes and prints nothing, and leaves [self.info]. *)
Lemma package_frame self s :
  conf_info (final_state (package self s)) = conf_info s
  ∧ output (final_state (package self s)) = output s
  ∧ info (final_state (package self s)) = info s.
Proof.
  destruct (package_outcome self s)
    as [(_ & _ & ->)|[(_ & e & ->)|(_ & _ & e & ->)]]; done.
Qed.

End outcome.

(** ** The install manifest *)

Section manifest.
Implicit Types (self : ConanFile) (s t : State) (fs : gmap string string).

(** C1: [package_info] appends, in this order, the build-outputs fragment
    exactly when [add_build_outputs] is true, the debug-optimization
    fragment exactly when [optimize_debug_build] is true, then always the
    color-output fragment and the core build fragment. On a fresh recipe
    object the list is [build_outputs; optimize_debug_build; colors; build]
    with both options true and [colors; build], of length 2, with both
    false; unless a copy raised, [resolveManifest] ends with that same
    list. *)
Theorem package_info_publish_order :
  (∀ self s, ∃ s',
      package_info self s = Returned tt s'
      ∧ publishList s'
        = publishList s
          ++ (if add_build_outputs (self_options self)
              then [Py.path_join (package_folder self)
                      "cmake/build_outputs.cmake"]
              else [])
          ++ (if optimize_debug_build (self_options self)
              then [Py.path_join (package_folder self)
                      "cmake/optimize_debug_build.cmake"]
              else [])
          ++ [Py.path_join (package_folder self) "cmake/colors.cmake";
              Py.path_join (package_folder self) "cmake/build.cmake"])
  ∧ (∀ st src pkg fs,
       let self := {| settings := st;
                      self_options := {| add_build_outputs := true;
                                         optimize_debug_build := true |};
                      source_folder := src; package_folder := pkg |} in
       publishList (final_state (package_info self (initial_state self fs)))
       = [Py.path_join pkg "cmake/build_outputs.cmake";
          Py.path_join pkg "cmake/optimize_debug_build.cmake";
          Py.path_join pkg "cmake/colors.cmake";
          Py.path_join pkg "cmake/build.cmake"])
  ∧ (∀ st src pkg fs,
       let self := {| settings := st;
                      self_options := {| add_build_outputs := false;
                                         optimize_debug_build := false |};
                      source_folder := src; package_folder := pkg |} in
       publishList (final_state (package_info self (initial_state self fs)))
       = [Py.path_join pkg "cmake/colors.cmake";
          Py.path_join pkg "cmake/build.cmake"]
       ∧ length (publishList
                   (final_state (package_info self (initial_state self fs))))
         = 2)
  ∧ (∀ self fs,
       (∃ e t, resolveManifest self fs = Raised e t)
       ∨ (∃ s',
            resolveManifest self fs = Returned tt s'
            ∧ publishList s'
              = (if add_build_outputs (self_options self)
                 then [Py.path_join (package_folder self)
                         "cmake/build_outputs.cmake"]
                 else [])
                ++ (if optimize_debug_build (self_options self)
                    then [Py.path_join (package_folder self)
                            "cmake/optimize_debug_build.cmake"]
                    else [])
                ++ [Py.path_join (package_folder self) "cmake/colors.cmake";
                    Py.path_join (package_folder self) "cmake/build.cmake"])).
Proof.
  split; [|split; [|split]].
  - intros self s.
    destruct (package_info_returns self s) as (s' & Hrun & Hpub & _).
    by exists s'.
  - intros st src pkg fs self.
    destruct (package_info_returns self (initial_state self fs))
      as (s' & -> & Hpub & _).
    simpl final_state. by rewrite Hpub.
  - intros st src pkg fs self.
    destruct (package_info_returns self (initial_state self fs))
      as (s' & -> & Hpub & _).
    simpl final_state. by rewrite Hpub.
  - intros self fs. unfold resolveManifest, mbind, M_bind.
    pose proof (package_frame self (initial_state self fs)) as (Hconf & _).
    destruct (package self (initial_state self fs)) as [[] t|e t];
      [right | left; eauto].
    destruct (package_info_returns self t) as (t' & Ht & Hpub & _).
    exists t'. split; [done|]. rewrite Hpub.
    unfold publishList at 1. simpl in Hconf. by rewrite Hconf, lookup_empty.
Qed.

(** C8: the lines [package_info] prints are the path of the clang-tidy
    configuration and the two option values, in that order, and unless a
    copy raised they are all that [resolveManifest] prints; printing a
    line changes neither the published list nor the copies nor any file,
    and what was printed before has no effect on what is published. *)
Theorem package_info_diagnostics self s :
  ∃ s',
    package_info self s = Returned tt s'
    ∧ output s'
      = output s
        ++ ["clang_tidy_config_path: "
              +:+ Py.path_join (package_folder self) "cmake/clang-tidy.conf";
            "add_build_outputs: "
              +:+ Py.str_bool (add_build_outputs (self_options self));
            "optimize_debug_build: "
              +:+ Py.str_bool (optimize_debug_build (self_options self))]
    ∧ copySet s' = copySet s
    ∧ files s' = files s
    ∧ (∀ msg, ∃ t,
          output_info msg s = Returned tt t
          ∧ publishList t = publishList s
          ∧ conf_info t = conf_info s
          ∧ copySet t = copySet s
          ∧ files t = files s)
    ∧ (∀ lines,
          conf_info (final_state (package_info self (set_output lines s)))
          = conf_info s')
    ∧ (∀ fs,
          (∃ e t, resolveManifest self fs = Raised e t)
          ∨ (∃ t,
               resolveManifest self fs = Returned tt t
               ∧ output t
                 = ["clang_tidy_config_path: "
                      +:+ Py.path_join (package_folder self)
                            "cmake/clang-tidy.conf";
                    "add_build_outputs: "
                      +:+ Py.str_bool (add_build_outputs (self_options self));
                    "optimize_debug_build: "
                      +:+ Py.str_bool
                            (optimize_debug_build (self_options self))])).
Proof.
  destruct (package_info_returns self s)
    as (s' & Hrun & _ & _ & Hout & Hfiles & Hcalls & _).
  exists s'. split; [done|]. split; [done|]. split; [done|].
  split; [done|]. split; [|split].
  - intros msg. by eexists.
  - intros lines.
    unfold package_info, mbind, M_bind, mret, M_ret in *.
    destruct (add_build_outputs (self_options self)),
      (optimize_debug_build (self_options self));
      unfold conf_info_append, output_info in *; simpl in *;
      by injection Hrun as <-.
  - intros fs. unfold resolveManifest, mbind, M_bind.
    pose proof (package_frame self (initial_state self fs)) as (_ & Ho & _).
    destruct (package self (initial_state self fs)) as [[] t|e t];
      [right | left; eauto].
    destruct (package_info_returns self t) as (t' & Ht & _ & _ & Hout' & _).
    exists t'. split; [done|]. rewrite Hout'. simpl in Ho. by rewrite Ho.
Qed.

(** C9: [package_id] clears [self.info]; whatever the option values and
    the settings of two recipe objects, the information the package
    identity is computed from ends up the same, and empty. *)
Theorem package_id_ignores_configuration self1 self2 fs1 fs2 :
  ∃ s1 s2,
    package_id (initial_state self1 fs1) = Returned tt s1
    ∧ package_id (initial_state self2 fs2) = Returned tt s2
    ∧ info s1 = info s2
    ∧ info_options (info s1) = ∅
    ∧ info_settings (info s1) = ∅.
Proof. by do 2 eexists. Qed.

(** C7, as stated, fails: the published list lives on the recipe object,
    so a second call with the same options, package folder and file system
    does not give the list of the first. After one [package_info] the
    sample recipe has published three fragments, after a second one six;
    and a second run of [package] and [package_info] on the state
    [resolveManifest] left has six copies and six fragments against
    three. *)
Lemma package_info_twice_accumulates :
  (∃ s1 s2,
      package_info sample_self (initial_state sample_self sample_tree)
      = Returned tt s1
      ∧ package_info sample_self s1 = Returned tt s2
      ∧ files s1 = sample_tree
      ∧ files s2 = sample_tree
      ∧ publishList s1
        = ["/cache/p/cmake/build_outputs.cmake";
           "/cache/p/cmake/colors.cmake";
           "/cache/p/cmake/build.cmake"]
      ∧ publishList s2
        = ["/cache/p/cmake/build_outputs.cmake";
           "/cache/p/cmake/colors.cmake";
           "/cache/p/cmake/build.cmake";
           "/cache/p/cmake/build_outputs.cmake";
           "/cache/p/cmake/colors.cmake";
           "/cache/p/cmake/build.cmake"]
      ∧ publishList s2 ≠ publishList s1)
  ∧ (∃ t1 t2,
        resolveManifest sample_self sample_tree = Returned tt t1
        ∧ (package sample_self ;; package_info sample_self) t1
          = Returned tt t2
        ∧ length (copySet t1) = 3
        ∧ length (copySet t2) = 6
        ∧ length (publishList t1) = 3
        ∧ length (publishList t2) = 6).
Proof.
  split.
  - destruct (package_info_returns sample_self
                (initial_state sample_self sample_tree))
      as (s1 & Hs1 & Hp1 & _ & _ & Hf1 & _).
    destruct (package_info_returns sample_self s1)
      as (s2 & Hs2 & Hp2 & _ & _ & Hf2 & _).
    exists s1, s2. rewrite Hf2, Hf1, Hp2, Hp1.
    do 4 (split; [done|]). split; [by vm_compute|].
    split; [by vm_compute|]. vm_compute. discriminate.
  - do 2 eexists. split; [vm_compute; reflexivity|].
    split; [vm_compute; reflexivity|]. by vm_compute.
Qed.

(** C7, amended: what one run of [package] followed by [package_info]
    contributes does not depend on what earlier runs left on the recipe
    object: from any state it returns exactly when [resolveManifest] does
    on the same file system, with the same files, and its copies and
    published fragments are those of [resolveManifest] appended after the
    earlier ones, none of which is removed. In particular two runs of
    [package_info] in a row publish the same fragments, the second after
    those of the first. *)
Theorem resolveManifest_independent_of_history self s :
  files (final_state ((package self ;; package_info self) s))
  = files (final_state (resolveManifest self (files s)))
  ∧ copySet (final_state ((package self ;; package_info self) s))
    = copySet s ++ copySet (final_state (resolveManifest self (files s)))
  ∧ publishList (final_state ((package self ;; package_info self) s))
    = publishList s
      ++ publishList (final_state (resolveManifest self (files s)))
  ∧ ((∃ t, (package self ;; package_info self) s = Returned tt t)
     ↔ (∃ t, resolveManifest self (files s) = Returned tt t))
  ∧ (∃ published s1 s2,
        package_info self s = Returned tt s1
        ∧ package_info self s1 = Returned tt s2
        ∧ publishList s1 = publishList s ++ published
        ∧ publishList s2 = publishList s1 ++ published).
Proof.
  assert (Htwice : ∃ published s1 s2,
             package_info self s = Returned tt s1
             ∧ package_info self s1 = Returned tt s2
             ∧ publishList s1 = publishList s ++ published
             ∧ publishList s2 = publishList s1 ++ published).
  { destruct (package_info_returns self s) as (s1 & Hs1 & Hp1 & _).
    destruct (package_info_returns self s1) as (s2 & Hs2 & Hp2 & _).
    eauto 10. }
  unfold resolveManifest, mbind, M_bind.
  destruct (package_outcome self s)
    as [(Hl & Hp & ->)|[(Hl & e & ->)|(Hl & Hp & e & ->)]];
    destruct (package_outcome self (initial_state self (files s)))
      as [(Hl' & Hp' & ->)|[(Hl' & e' & ->)|(Hl' & Hp' & e' & ->)]];
    try done.
  - match goal with
    | |- context [package_info self ?a] =>
        destruct (package_info_returns self a)
          as (t & -> & Hpub & _ & _ & Hfiles & Hcalls & _)
    end.
    match goal with
    | |- context [package_info self ?a] =>
        destruct (package_info_returns self a)
          as (t0 & -> & Hpub0 & _ & _ & Hfiles0 & Hcalls0 & _)
    end.
    simpl final_state. unfold copySet.
    rewrite Hfiles, Hfiles0, Hcalls, Hcalls0, Hpub, Hpub0.
    split; [done|]. split; [simpl; by rewrite <- !app_assoc|].
    split; [|split; [split; intros _; eauto | exact Htwice]].
    unfold publishList. simpl. by rewrite lookup_empty.
  - simpl. rewrite app_nil_r. unfold publishList. simpl.
    rewrite lookup_empty, app_nil_r.
    do 3 (split; [done|]).
    split; [split; intros [t Ht]; discriminate | exact Htwice].
  - simpl. unfold publishList. simpl.
    rewrite lookup_empty, app_nil_r.
    do 3 (split; [done|]).
    split; [split; intros [t Ht]; discriminate | exact Htwice].
Qed.

End manifest.

(** ** The copy side of the manifest *)

Section copies.
Implicit Types (self : ConanFile) (s : State) (fs : gmap string string).

Lemma sample_disjoint : disjoint_trees sample_self.
Proof. intros r1 r2. vm_compute. by intros [=]. Qed.

(** C2, as stated, fails: over a source tree without its license
    [resolveManifest] does not raise; it returns after its three copies,
    and the scripts are in the package. *)
Lemma package_without_license_returns :
  unlicensed_tree !! Py.path_join (source_folder sample_self) "LICENSE" = None
  ∧ files_to_copy "LICENSE" (Py.path_join (source_folder sample_self) "")
      (Py.path_join (package_folder sample_self) "licenses") unlicensed_tree
    = []
  ∧ (¬ ∃ e t, resolveManifest sample_self unlicensed_tree = Raised e t)
  ∧ ∃ s', resolveManifest sample_self unlicensed_tree = Returned tt s'
          ∧ length (copySet s') = 3
          ∧ files s' !! "/cache/p/cmake/build.cmake" = Some "# build"
          ∧ files s' !! "/cache/p/licenses/LICENSE" = None.
Proof.
  assert (Hrun : ∃ s', resolveManifest sample_self unlicensed_tree
                       = Returned tt s'
                       ∧ length (copySet s') = 3
                       ∧ files s' !! "/cache/p/cmake/build.cmake"
                         = Some "# build"
                       ∧ files s' !! "/cache/p/licenses/LICENSE" = None).
  { unfold resolveManifest, mbind, M_bind.
    rewrite (disjoint_trees_returns _ _ sample_disjoint).
    destruct (package_info_returns sample_self
                (copy_done "cmake/*.conf" (source_folder sample_self)
                   (package_folder sample_self)
                   (copy_done "cmake/*.cmake" (source_folder sample_self)
                      (package_folder sample_self)
                      (copy_done "LICENSE" (source_folder sample_self)
                         (Py.path_join (package_folder sample_self)
                            "licenses")
                         (initial_state sample_self unlicensed_tree)))))
      as (s' & -> & _ & _ & _ & Hfiles & Hcalls & _).
    exists s'. split; [done|]. unfold copySet. rewrite Hfiles, Hcalls.
    split; [done|]. split; vm_compute; reflexivity. }
  split; [vm_compute; reflexivity|]. split; [vm_compute; reflexivity|].
  split; [|done].
  intros (e & t & Hraised). destruct Hrun as (s' & Hret & _). congruence.
Qed.

(** C2, amended: no absent file makes [resolveManifest] fail. Whenever the
    source folder is neither the package folder nor its [licenses] folder,
    it returns on every source tree; when the [LICENSE] pattern selects no
    file, that copy changes nothing and the files are those the two script
    copies leave; when no pattern selects a file, the file system is
    unchanged. *)
Theorem resolveManifest_absent_files_no_error self fs :
  source_folder self ≠ package_folder self →
  source_folder self ≠ Py.path_join (package_folder self) "licenses" →
  ∃ s',
    resolveManifest self fs = Returned tt s'
    ∧ (files_to_copy "LICENSE" (Py.path_join (source_folder self) "")
         (Py.path_join (package_folder self) "licenses") fs = [] →
       files s'
       = files (copy_done "cmake/*.conf" (source_folder self)
                  (package_folder self)
                  (copy_done "cmake/*.cmake" (source_folder self)
                     (package_folder self) (initial_state self fs))))
    ∧ (files_to_copy "LICENSE" (Py.path_join (source_folder self) "")
         (Py.path_join (package_folder self) "licenses") fs = [] →
       files_to_copy "cmake/*.cmake" (Py.path_join (source_folder self) "")
         (package_folder self) fs = [] →
       files_to_copy "cmake/*.conf" (Py.path_join (source_folder self) "")
         (package_folder self) fs = [] →
       files s' = fs).
Proof.
  intros Hpkg Hlic. unfold resolveManifest, mbind, M_bind.
  rewrite package_returns by done.
  match goal with
  | |- context [package_info self ?a] =>
      destruct (package_info_returns self a)
        as (s' & -> & _ & _ & _ & Hfiles & _)
  end.
  exists s'. split; [done|]. rewrite Hfiles.
  assert (Hfirst :
    files_to_copy "LICENSE" (Py.path_join (source_folder self) "")
      (Py.path_join (package_folder self) "licenses") fs = [] →
    files (copy_done "LICENSE" (source_folder self)
             (Py.path_join (package_folder self) "licenses")
             (initial_state self fs))
    = files (initial_state self fs))
    by (intros Hnil; by apply copy_nothing).
  split.
  - intros Hnil. by apply copy_done_files, copy_done_files, Hfirst.
  - intros Hnil1 Hnil2 Hnil3.
    rewrite (copy_done_files _ _ _ _
               (copy_done "cmake/*.cmake" (source_folder self)
                  (package_folder self) (initial_state self fs)))
      by (by apply copy_done_files, Hfirst).
    rewrite copy_nothing; rewrite copy_nothing; done.
Qed.

Lemma resolveManifest_absent_files_no_error_witness :
  source_folder sample_self ≠ package_folder sample_self
  ∧ source_folder sample_self
    ≠ Py.path_join (package_folder sample_self) "licenses"
  ∧ ∃ s',
    resolveManifest sample_self unlicensed_tree = Returned tt s'
    ∧ (files_to_copy "LICENSE" (Py.path_join (source_folder sample_self) "")
         (Py.path_join (package_folder sample_self) "licenses")
         unlicensed_tree = [] →
       files s'
       = files (copy_done "cmake/*.conf" (source_folder sample_self)
                  (package_folder sample_self)
                  (copy_done "cmake/*.cmake" (source_folder sample_self)
                     (package_folder sample_self)
                     (initial_state sample_self unlicensed_tree))))
    ∧ (files_to_copy "LICENSE" (Py.path_join (source_folder sample_self) "")
         (Py.path_join (package_folder sample_self) "licenses")
         unlicensed_tree = [] →
       files_to_copy "cmake/*.cmake"
         (Py.path_join (source_folder sample_self) "")
         (package_folder sample_self) unlicensed_tree = [] →
       files_to_copy "cmake/*.conf"
         (Py.path_join (source_folder sample_self) "")
         (package_folder sample_self) unlicensed_tree = [] →
       files s' = unlicensed_tree).
Proof.
  assert (H1 : source_folder sample_self ≠ package_folder sample_self)
    by (vm_compute; discriminate).
  assert (H2 : source_folder sample_self
               ≠ Py.path_join (package_folder sample_self) "licenses")
    by (vm_compute; discriminate).
  split; [exact H1|]. split; [exact H2|].
  exact (resolveManifest_absent_files_no_error sample_self unlicensed_tree
           H1 H2).
Defined.

(** C6: the copies [package] makes are the same fixed sequence whatever
    the option values and settings: the [LICENSE] pattern into the
    [licenses] folder of the package, then the script patterns under
    [cmake] into the package folder. Between disjoint source and package
    trees the license is then found at [licenses/LICENSE], and every file
    below [cmake] matching a script pattern at the same relative path
    below the package folder. *)
Theorem package_copy_set_fixed self s :
  disjoint_trees self →
  ∃ s',
    package self s = Returned tt s'
    ∧ copySet s'
      = copySet s
        ++ [{| call_pattern := "LICENSE";
               call_src := source_folder self;
               call_dst := Py.path_join (package_folder self) "licenses" |};
            {| call_pattern := "cmake/*.cmake";
               call_src := source_folder self;
               call_dst := package_folder self |};
            {| call_pattern := "cmake/*.conf";
               call_src := source_folder self;
               call_dst := package_folder self |}]
    ∧ (∀ st opts,
          package {| settings := st; self_options := opts;
                     source_folder := source_folder self;
                     package_folder := package_folder self |} s
          = Returned tt s')
    ∧ (∀ c,
          files s !! (Py.path_join (source_folder self) "" +:+ "LICENSE")
          = Some c →
          files s' !! Py.path_join
                        (Py.path_join (package_folder self) "licenses")
                        "LICENSE" = Some c)
    ∧ (∀ rel c,
          Py.fnmatchcase (Py.lower rel) "cmake/*.cmake" = true
          ∨ Py.fnmatchcase (Py.lower rel) "cmake/*.conf" = true →
          files s !! (Py.path_join (source_folder self) "" +:+ rel)
          = Some c →
          files s' !! Py.path_join (package_folder self) rel = Some c).
Proof.
  intros Hd. pose proof (disjoint_trees_returns self s Hd) as Hrun.
  eexists. split; [exact Hrun|]. split; [|split; [|split]].
  - unfold copySet. simpl. by rewrite <- !app_assoc.
  - intros st opts. by rewrite <- Hrun.
  - intros c Hc.
    destruct (package_copies_license self s c Hd Hc) as (s' & Hs' & Hl).
    rewrite Hrun in Hs'. by injection Hs' as <-.
  - intros rel c Hm Hc.
    destruct (package_mirrors_script self s rel c Hd Hm Hc)
      as (s' & Hs' & Hl).
    rewrite Hrun in Hs'. by injection Hs' as <-.
Qed.

Lemma package_copy_set_fixed_witness :
  disjoint_trees sample_self
  ∧ ∃ s',
    package sample_self (initial_state sample_self sample_tree)
    = Returned tt s'
    ∧ copySet s'
      = copySet (initial_state sample_self sample_tree)
        ++ [{| call_pattern := "LICENSE";
               call_src := source_folder sample_self;
               call_dst := Py.path_join (package_folder sample_self)
                             "licenses" |};
            {| call_pattern := "cmake/*.cmake";
               call_src := source_folder sample_self;
               call_dst := package_folder sample_self |};
            {| call_pattern := "cmake/*.conf";
               call_src := source_folder sample_self;
               call_dst := package_folder sample_self |}]
    ∧ (∀ st opts,
          package {| settings := st; self_options := opts;
                     source_folder := source_folder sample_self;
                     package_folder := package_folder sample_self |}
            (initial_state sample_self sample_tree)
          = Returned tt s')
    ∧ (∀ c,
          files (initial_state sample_self sample_tree)
            !! (Py.path_join (source_folder sample_self) "" +:+ "LICENSE")
          = Some c →
          files s' !! Py.path_join
                        (Py.path_join (package_folder sample_self) "licenses")
                        "LICENSE" = Some c)
    ∧ (∀ rel c,
          Py.fnmatchcase (Py.lower rel) "cmake/*.cmake" = true
          ∨ Py.fnmatchcase (Py.lower rel) "cmake/*.conf" = true →
          files (initial_state sample_self sample_tree)
            !! (Py.path_join (source_folder sample_self) "" +:+ rel)
          = Some c →
          files s' !! Py.path_join (package_folder sample_self) rel
          = Some c).
Proof.
  assert (Hd : disjoint_trees sample_self)
    by (intros r1 r2; vm_compute; discriminate).
  split; [exact Hd|].
  exact (package_copy_set_fixed sample_self
           (initial_state sample_self sample_tree) Hd).
Defined.

(** C10: [package] copies with two different patterns below [cmake],
    [cmake/*.cmake] and [cmake/*.conf]; the second, not the first, selects
    [cmake/clang-tidy.conf], so between disjoint source and package trees
    a clang-tidy configuration present in the source tree is found at
    [cmake/clang-tidy.conf] below the package folder, as is every other
    file matching [cmake/*.conf]. *)
Theorem package_copies_conf_files self s c :
  disjoint_trees self →
  files s !! (Py.path_join (source_folder self) "" +:+ "cmake/clang-tidy.conf")
  = Some c →
  ∃ s',
    package self s = Returned tt s'
    ∧ {| call_pattern := "cmake/*.cmake"; call_src := source_folder self;
         call_dst := package_folder self |} ∈ copySet s'
    ∧ {| call_pattern := "cmake/*.conf"; call_src := source_folder self;
         call_dst := package_folder self |} ∈ copySet s'
    ∧ "cmake/*.cmake" ≠ "cmake/*.conf"
    ∧ Py.fnmatchcase (Py.lower "cmake/clang-tidy.conf")
        (Py.lower "cmake/*.cmake") = false
    ∧ Py.fnmatchcase (Py.lower "cmake/clang-tidy.conf")
        (Py.lower "cmake/*.conf") = true
    ∧ files s' !! Py.path_join (package_folder self) "cmake/clang-tidy.conf"
      = Some c
    ∧ (∀ rel c',
          Py.fnmatchcase (Py.lower rel) (Py.lower "cmake/*.conf") = true →
          files s !! (Py.path_join (source_folder self) "" +:+ rel)
          = Some c' →
          files s' !! Py.path_join (package_folder self) rel = Some c').
Proof.
  intros Hd Hc. pose proof (disjoint_trees_returns self s Hd) as Hrun.
  eexists. split; [exact Hrun|].
  split.
  { unfold copySet. simpl. rewrite !elem_of_app, !list_elem_of_singleton.
    by left; right. }
  split.
  { unfold copySet. simpl. rewrite !elem_of_app, !list_elem_of_singleton.
    by right. }
  split; [done|]. split; [done|]. split; [done|]. split.
  - destruct (package_mirrors_script self s "cmake/clang-tidy.conf" c Hd)
      as (s' & Hs' & Hl); [by right | done |].
    rewrite Hrun in Hs'. by injection Hs' as <-.
  - intros rel c' Hm Hc'.
    destruct (package_mirrors_script self s rel c' Hd)
      as (s' & Hs' & Hl); [by right | done |].
    rewrite Hrun in Hs'. by injection Hs' as <-.
Qed.

Lemma package_copies_conf_files_witness :
  disjoint_trees sample_self
  ∧ files (initial_state sample_self sample_tree)
      !! (Py.path_join (source_folder sample_self) ""
          +:+ "cmake/clang-tidy.conf")
    = Some "Checks: *"
  ∧ ∃ s',
    package sample_self (initial_state sample_self sample_tree)
    = Returned tt s'
    ∧ {| call_pattern := "cmake/*.cmake";
         call_src := source_folder sample_self;
         call_dst := package_folder sample_self |} ∈ copySet s'
    ∧ {| call_pattern := "cmake/*.conf";
         call_src := source_folder sample_self;
         call_dst := package_folder sample_self |} ∈ copySet s'
    ∧ "cmake/*.cmake" ≠ "cmake/*.conf"
    ∧ Py.fnmatchcase (Py.lower "cmake/clang-tidy.conf")
        (Py.lower "cmake/*.cmake") = false
    ∧ Py.fnmatchcase (Py.lower "cmake/clang-tidy.conf")
        (Py.lower "cmake/*.conf") = true
    ∧ files s' !! Py.path_join (package_folder sample_self)
                    "cmake/clang-tidy.conf"
      = Some "Checks: *"
    ∧ (∀ rel c',
          Py.fnmatchcase (Py.lower rel) (Py.lower "cmake/*.conf") = true →
          files (initial_state sample_self sample_tree)
            !! (Py.path_join (source_folder sample_self) "" +:+ rel)
          = Some c' →
          files s' !! Py.path_join (package_folder sample_self) rel
          = Some c').
Proof.
  assert (Hd : disjoint_trees sample_self)
    by (intros r1 r2; vm_compute; discriminate).
  assert (Hc : files (initial_state sample_self sample_tree)
                 !! (Py.path_join (source_folder sample_self) ""
                     +:+ "cmake/clang-tidy.conf")
               = Some "Checks: *")
    by (vm_compute; reflexivity).
  split; [exact Hd|]. split; [exact Hc|].
  exact (package_copies_conf_files sample_self
           (initial_state sample_self sample_tree) "Checks: *" Hd Hc).
Defined.

End copies.

(** ** When [package] raises *)

Section failures.
Implicit Types (self : ConanFile) (s : State) (fs : gmap string string).

Lemma app_eq_self (a x : string) : a = a +:+ x → x = "".
Proof.
  intros Heq. symmetry. apply (inj (String.app a)). by rewrite app_empty_r.
Qed.

Lemma path_join_licenses_ne (a : string) : Py.path_join a "licenses" ≠ a.
Proof.
  rewrite (path_join_relative a "licenses") by done.
  destruct (path_join_empty a) as [x ->]. rewrite app_assoc_s.
  intros Heq. symmetry in Heq. apply app_eq_self in Heq.
  by destruct x.
Qed.

Lemma startswith_app (a x y : string) :
  Py.startswith (a +:+ x) (a +:+ y) = Py.startswith x y.
Proof.
  unfold Py.startswith. induction a as [|c a IH]; [done|].
  rewrite !app_cons. simpl. by rewrite Ascii.eqb_refl.
Qed.

(** X2: packaging in place: when the package folder is the source folder, the
    [LICENSE] copy is made and recorded, and the next copy raises. The
    failure is not all-or-nothing: a license present in the source folder
    has been written to its [licenses] folder by then. *)
Theorem package_in_place_raises self s :
  source_folder self = package_folder self →
  ∃ msg t,
    package self s = Raised (ConanException msg) t
    ∧ copySet t
      = copySet s
        ++ [{| call_pattern := "LICENSE";
               call_src := source_folder self;
               call_dst := Py.path_join (package_folder self) "licenses" |}]
    ∧ (∀ c,
          files s !! (Py.path_join (source_folder self) "" +:+ "LICENSE")
          = Some c →
          files t !! Py.path_join
                       (Py.path_join (package_folder self) "licenses")
                       "LICENSE" = Some c).
Proof.
  intros Hsame.
  destruct (package_outcome self s)
    as [(_ & Hp & _)|[(Hl & _)|(_ & _ & [msg] & Hrun)]].
  - done.
  - rewrite Hsame in Hl. symmetry in Hl. by apply path_join_licenses_ne in Hl.
  - exists msg. eexists. split; [exact Hrun|]. split; [done|].
    intros c Hc. apply copy_writes, files_to_copy_spec.
    split; [done|]. split; [done|]. split; [done|].
    unfold walk_skips. rewrite <- Hsame.
    rewrite (path_join_relative (source_folder self) "licenses") by done.
    rewrite app_assoc_s, startswith_app.
    change (Py.startswith "LICENSE" "licenses/") with false.
    rewrite andb_false_r, orb_false_r.
    apply String.eqb_neq. intros Heq. symmetry in Heq.
    by apply app_eq_self in Heq.
Qed.

Lemma package_in_place_raises_witness :
  source_folder inplace_self = package_folder inplace_self
  ∧ ∃ msg t,
    package inplace_self (initial_state inplace_self sample_tree)
    = Raised (ConanException msg) t
    ∧ copySet t
      = copySet (initial_state inplace_self sample_tree)
        ++ [{| call_pattern := "LICENSE";
               call_src := source_folder inplace_self;
               call_dst := Py.path_join (package_folder inplace_self)
                             "licenses" |}]
    ∧ (∀ c,
          files (initial_state inplace_self sample_tree)
            !! (Py.path_join (source_folder inplace_self) "" +:+ "LICENSE")
          = Some c →
          files t !! Py.path_join
                       (Py.path_join (package_folder inplace_self) "licenses")
                       "LICENSE" = Some c).
Proof.
  split; [reflexivity|].
  exact (package_in_place_raises inplace_self
           (initial_state inplace_self sample_tree) eq_refl).
Defined.

(** X3: packaging from the [licenses] folder of the package: the first copy
    raises, and nothing has been copied or recorded. *)
Theorem package_from_licenses_raises self s :
  source_folder self = Py.path_join (package_folder self) "licenses" →
  ∃ msg, package self s = Raised (ConanException msg) s.
Proof.
  intros Hsame.
  destruct (package_outcome self s)
    as [(Hl & _)|[(_ & [msg] & Hrun)|(Hl & _)]]; [done | eauto | done].
Qed.

Lemma package_from_licenses_raises_witness :
  source_folder nested_self
  = Py.path_join (package_folder nested_self) "licenses"
  ∧ ∃ msg,
    package nested_self (initial_state nested_self sample_tree)
    = Raised (ConanException msg) (initial_state nested_self sample_tree).
Proof.
  split; [reflexivity|].
  exact (package_from_licenses_raises nested_self
           (initial_state nested_self sample_tree) eq_refl).
Defined.

End failures.

(** ** What [package] writes, and where *)

Section footprint.
Implicit Types (self : ConanFile) (s : State) (pattern src dst : string).
Implicit Types (rel q c : string).

Lemma copy_done_outside pattern src dst s q :
  (∀ r, q ≠ Py.path_join dst "" +:+ r) →
  files (copy_done pattern src dst s) !! q = files s !! q.
Proof.
  intros Hout. apply copy_untouched. intros rel c' Hin Heq.
  apply files_to_copy_spec in Hin as (_ & _ & Hs & _).
  rewrite (path_join_relative dst rel) in Heq by done.
  by apply Hout in Heq.
Qed.

Lemma copy_done_provenance pattern src dst s q c :
  files (copy_done pattern src dst s) !! q = Some c →
  files s !! q = Some c
  ∨ ∃ rel,
      Py.fnmatchcase (Py.lower rel) (Py.lower pattern) = true
      ∧ Py.startswith rel "/" = false
      ∧ q = Py.path_join dst rel
      ∧ files s !! (Py.path_join src "" +:+ rel) = Some c.
Proof.
  intros [Hl|[_ Hr]]%lookup_union_Some_raw; [right | by left].
  apply elem_of_list_to_map_2, copied_files_spec in Hl as [rel [-> Hin]].
  apply files_to_copy_spec in Hin as (Hm & Hfs & Hs & _).
  by exists rel.
Qed.

Lemma copy_done_already_mirrored pattern src dst s :
  (∀ rel c,
      (rel, c) ∈ files_to_copy pattern (Py.path_join src "") dst (files s) →
      files s !! Py.path_join dst rel = Some c) →
  files (copy_done pattern src dst s) = files s.
Proof.
  intros Hmir. apply map_eq. intros q. simpl. rewrite lookup_union.
  destruct (list_to_map _ !! q) as [c|] eqn:Hl.
  - apply elem_of_list_to_map_2, copied_files_spec in Hl as [rel [-> Hin]].
    by rewrite (Hmir _ _ Hin).
  - by rewrite (left_id None _).
Qed.

Lemma package_packaged self s :
  disjoint_trees self → package self s = Returned tt (packaged self s).
Proof. apply disjoint_trees_returns. Qed.

Lemma packaged_source_kept self s rel :
  disjoint_trees self →
  files (packaged self s) !! (Py.path_join (source_folder self) "" +:+ rel)
  = files s !! (Py.path_join (source_folder self) "" +:+ rel).
Proof.
  intros Hd. unfold packaged.
  rewrite !disjoint_source_kept;
    auto using disjoint_trees_package, disjoint_trees_licenses.
Qed.

Lemma packaged_script self s rel c :
  disjoint_trees self →
  Py.fnmatchcase (Py.lower rel) "cmake/*.cmake" = true
  ∨ Py.fnmatchcase (Py.lower rel) "cmake/*.conf" = true →
  files s !! (Py.path_join (source_folder self) "" +:+ rel) = Some c →
  files (packaged self s) !! Py.path_join (package_folder self) rel = Some c.
Proof.
  intros Hd Hm Hfs.
  destruct (package_mirrors_script self s rel c Hd Hm Hfs) as (s' & Hs' & Hl).
  rewrite package_packaged in Hs' by done. by injection Hs' as <-.
Qed.

Lemma license_match_relative rel :
  Py.fnmatchcase (Py.lower rel) "license" = true →
  Py.startswith rel "/" = false.
Proof.
  destruct rel as [|a rel]; [done|]. unfold Py.startswith.
  change (Py.strip_prefix "/" (String a rel))
    with (if Ascii.eqb "/" a then Py.strip_prefix "" rel else None).
  destruct (Ascii.eqb_spec "/" a) as [<-|]; [|done].
  intros Hm. cbn in Hm. discriminate.
Qed.

(** The destination of a license, seen from the package folder. *)
Lemma path_join_licenses_rel (a rel : string) :
  Py.startswith rel "/" = false →
  Py.path_join (Py.path_join a "licenses") rel
  = Py.path_join a ("licenses/" +:+ rel).
Proof.
  intros Hs. rewrite (path_join_relative _ rel) by done.
  rewrite path_join_licenses, app_assoc_s.
  by rewrite (path_join_relative a ("licenses/" +:+ rel)) by done.
Qed.

(** No name below [licenses/] matches a script pattern. *)
Lemma licenses_not_script rel :
  Py.fnmatchcase (Py.lower ("licenses/" +:+ rel)) "cmake/*.cmake" = false
  ∧ Py.fnmatchcase (Py.lower ("licenses/" +:+ rel)) "cmake/*.conf" = false.
Proof. by rewrite app_cons. Qed.

Lemma packaged_license self s rel c :
  disjoint_trees self →
  Py.fnmatchcase (Py.lower rel) "license" = true →
  files s !! (Py.path_join (source_folder self) "" +:+ rel) = Some c →
  files (packaged self s)
    !! Py.path_join (Py.path_join (package_folder self) "licenses") rel
  = Some c.
Proof.
  intros Hd Hm Hfs.
  pose proof (disjoint_trees_package _ Hd) as Hp.
  pose proof (disjoint_trees_licenses _ Hd) as Hl.
  pose proof (license_match_relative _ Hm) as Hrel.
  assert (Hother : ∀ pattern t rel' c',
    Py.fnmatchcase (Py.lower ("licenses/" +:+ rel)) (Py.lower pattern)
    = false →
    (rel', c') ∈ files_to_copy pattern (Py.path_join (source_folder self) "")
                   (package_folder self) (files t) →
    Py.path_join (Py.path_join (package_folder self) "licenses") rel
    = Py.path_join (package_folder self) rel' → c' = c).
  { intros pattern t rel' c' Hno (Hm' & _ & Hs')%disjoint_selected Heq;
      [|done].
    rewrite path_join_licenses_rel in Heq by done.
    apply path_join_inj in Heq as <-; [congruence | done | done]. }
  unfold packaged. apply copy_keeps.
  - apply copy_keeps.
    + by apply disjoint_copy_mirrors.
    + intros rel' c'. apply Hother, licenses_not_script.
  - intros rel' c'. apply Hother, licenses_not_script.
Qed.

(** X4: [package] writes below the package folder only: whether it returns or
    raises, a path that is not below the package folder holds afterwards
    what it held before. *)
Theorem package_writes_below_package_folder self s q :
  (∀ r, q ≠ Py.path_join (package_folder self) "" +:+ r) →
  files (final_state (package self s)) !! q = files s !! q.
Proof.
  intros Hout.
  assert (Hlic : ∀ r,
    q ≠ Py.path_join (Py.path_join (package_folder self) "licenses") ""
        +:+ r)
    by (intros r; rewrite path_join_licenses, app_assoc_s; apply Hout).
  destruct (package_outcome self s)
    as [(_ & _ & ->)|[(_ & e & ->)|(_ & _ & e & ->)]]; simpl final_state.
  - by rewrite !copy_done_outside.
  - done.
  - by rewrite copy_done_outside.
Qed.

Lemma package_writes_below_package_folder_witness :
  (∀ r, "/cache/s/LICENSE" ≠ Py.path_join (package_folder sample_self) "" +:+ r)
  ∧ files (final_state (package sample_self
                          (initial_state sample_self sample_tree)))
      !! "/cache/s/LICENSE"
    = files (initial_state sample_self sample_tree) !! "/cache/s/LICENSE".
Proof.
  assert (Hout : ∀ r, "/cache/s/LICENSE"
                      ≠ Py.path_join (package_folder sample_self) "" +:+ r)
    by (intros r; vm_compute; discriminate).
  split; [exact Hout|].
  exact (package_writes_below_package_folder sample_self
           (initial_state sample_self sample_tree) "/cache/s/LICENSE" Hout).
Defined.

Lemma packaged_provenance self s q c :
  disjoint_trees self →
  files (packaged self s) !! q = Some c →
  files s !! q = Some c
  ∨ (∃ rel,
       Py.fnmatchcase (Py.lower rel) (Py.lower "LICENSE") = true
       ∧ Py.startswith rel "/" = false
       ∧ q = Py.path_join (Py.path_join (package_folder self) "licenses") rel
       ∧ files s !! (Py.path_join (source_folder self) "" +:+ rel) = Some c)
  ∨ (∃ rel,
       (Py.fnmatchcase (Py.lower rel) (Py.lower "cmake/*.cmake") = true
        ∨ Py.fnmatchcase (Py.lower rel) (Py.lower "cmake/*.conf") = true)
       ∧ Py.startswith rel "/" = false
       ∧ q = Py.path_join (package_folder self) rel
       ∧ files s !! (Py.path_join (source_folder self) "" +:+ rel) = Some c).
Proof.
  intros Hd Hq.
  pose proof (disjoint_trees_package _ Hd) as Hp.
  pose proof (disjoint_trees_licenses _ Hd) as Hl.
  unfold packaged in Hq.
  apply copy_done_provenance in Hq as [Hq|(rel & Hm & Hs & -> & Hfs)].
  - apply copy_done_provenance in Hq as [Hq|(rel & Hm & Hs & -> & Hfs)].
    + apply copy_done_provenance in Hq as [Hq|(rel & Hm & Hs & -> & Hfs)].
      * by left.
      * right; left. by exists rel.
    + rewrite disjoint_source_kept in Hfs by done.
      right; right. exists rel. eauto.
  - rewrite !disjoint_source_kept in Hfs by done.
    right; right. exists rel. eauto.
Qed.

(** X5: nothing else is packaged: between disjoint source and package trees, a
    file found after [package] was there before with the same contents, or
    is the copy below [licenses] of a source file whose name is [LICENSE]
    up to case, or is the copy at the same relative name of a source file
    matching [cmake/*.cmake] or [cmake/*.conf]. *)
Theorem package_installs_only_matches self s :
  disjoint_trees self →
  ∃ s',
    package self s = Returned tt s'
    ∧ ∀ q c,
        files s' !! q = Some c →
        files s !! q = Some c
        ∨ (∃ rel,
             Py.fnmatchcase (Py.lower rel) (Py.lower "LICENSE") = true
             ∧ q = Py.path_join
                     (Py.path_join (package_folder self) "licenses") rel
             ∧ files s !! (Py.path_join (source_folder self) "" +:+ rel)
               = Some c)
        ∨ (∃ rel,
             (Py.fnmatchcase (Py.lower rel) (Py.lower "cmake/*.cmake") = true
              ∨ Py.fnmatchcase (Py.lower rel) (Py.lower "cmake/*.conf") = true)
             ∧ q = Py.path_join (package_folder self) rel
             ∧ files s !! (Py.path_join (source_folder self) "" +:+ rel)
               = Some c).
Proof.
  intros Hd. exists (packaged self s). split; [by apply package_packaged|].
  intros q c Hq.
  destruct (packaged_provenance self s q c Hd Hq)
    as [Hold|[(rel & Hm & _ & Hq' & Hfs)|(rel & Hm & _ & Hq' & Hfs)]].
  - by left.
  - right; left. by exists rel.
  - right; right. by exists rel.
Qed.

Lemma package_installs_only_matches_witness :
  disjoint_trees sample_self
  ∧ ∃ s',
    package sample_self (initial_state sample_self sample_tree)
    = Returned tt s'
    ∧ ∀ q c,
        files s' !! q = Some c →
        files (initial_state sample_self sample_tree) !! q = Some c
        ∨ (∃ rel,
             Py.fnmatchcase (Py.lower rel) (Py.lower "LICENSE") = true
             ∧ q = Py.path_join
                     (Py.path_join (package_folder sample_self) "licenses")
                     rel
             ∧ files (initial_state sample_self sample_tree)
                 !! (Py.path_join (source_folder sample_self) "" +:+ rel)
               = Some c)
        ∨ (∃ rel,
             (Py.fnmatchcase (Py.lower rel) (Py.lower "cmake/*.cmake") = true
              ∨ Py.fnmatchcase (Py.lower rel) (Py.lower "cmake/*.conf") = true)
             ∧ q = Py.path_join (package_folder sample_self) rel
             ∧ files (initial_state sample_self sample_tree)
                 !! (Py.path_join (source_folder sample_self) "" +:+ rel)
               = Some c).
Proof.
  assert (Hd : disjoint_trees sample_self)
    by (intros r1 r2; vm_compute; discriminate).
  split; [exact Hd|].
  exact (package_installs_only_matches sample_self
           (initial_state sample_self sample_tree) Hd).
Defined.

(** X6: packaging again changes no file: between disjoint source and package
    trees a second run of [package] returns as the first did and leaves the
    file system of the first; only the record of the calls grows. *)
Theorem package_twice_same_files self s :
  disjoint_trees self →
  ∃ s1 s2,
    package self s = Returned tt s1
    ∧ package self s1 = Returned tt s2
    ∧ files s2 = files s1
    ∧ length (copySet s2) = length (copySet s1) + 3.
Proof.
  intros Hd. exists (packaged self s), (packaged self (packaged self s)).
  split; [by apply package_packaged|]. split; [by apply package_packaged|].
  pose proof (disjoint_trees_package _ Hd) as Hp.
  pose proof (disjoint_trees_licenses _ Hd) as Hl.
  split; [|unfold copySet; simpl; rewrite !length_app; simpl; lia].
  set (s1 := packaged self s).
  assert (H1 : files (copy_done "LICENSE" (source_folder self)
                        (Py.path_join (package_folder self) "licenses") s1)
               = files s1).
  { apply copy_done_already_mirrored.
    intros rel c (Hm & Hfs & _)%disjoint_selected; [|done].
    unfold s1 in Hfs. rewrite packaged_source_kept in Hfs by done.
    by apply packaged_license. }
  assert (Hscript : ∀ pattern t,
    pattern = "cmake/*.cmake" ∨ pattern = "cmake/*.conf" →
    files t = files s1 →
    files (copy_done pattern (source_folder self) (package_folder self) t)
    = files s1).
  { intros pattern t Hpat Ht. rewrite <- Ht.
    apply copy_done_already_mirrored. rewrite Ht.
    intros rel c (Hm & Hfs & _)%disjoint_selected; [|done].
    unfold s1 in Hfs. rewrite packaged_source_kept in Hfs by done.
    apply packaged_script; [done | | done].
    destruct Hpat as [-> | ->]; [by left | by right]. }
  unfold packaged at 1. apply Hscript; [by right|].
  apply Hscript; [by left|]. exact H1.
Qed.

Lemma package_twice_same_files_witness :
  disjoint_trees sample_self
  ∧ ∃ s1 s2,
    package sample_self (initial_state sample_self sample_tree)
    = Returned tt s1
    ∧ package sample_self s1 = Returned tt s2
    ∧ files s2 = files s1
    ∧ length (copySet s2) = length (copySet s1) + 3.
Proof.
  assert (Hd : disjoint_trees sample_self)
    by (intros r1 r2; vm_compute; discriminate).
  split; [exact Hd|].
  exact (package_twice_same_files sample_self
           (initial_state sample_self sample_tree) Hd).
Defined.

End footprint.

(** ** What the patterns of the recipe select *)

Section patterns.
Implicit Types (pat lit n rel mid : string) (ch : ascii).

Lemma fnmatchcase_pat_literal ch pat n :
  ch ≠ "*"%char → ch ≠ "?"%char →
  Py.fnmatchcase_pat (String ch pat) n
  = match n with
    | EmptyString => false
    | String d n' => Ascii.eqb ch d && Py.fnmatchcase_pat pat n'
    end.
Proof.
  intros Hstar Hany. destruct ch as [[] [] [] [] [] [] [] []]; done.
Qed.

Lemma fnmatchcase_pat_star pat n :
  Py.fnmatchcase_pat (String "*" pat) n
  = Py.fnmatchcase_pat pat n
    || match n with
       | EmptyString => false
       | String _ n' => Py.fnmatchcase_pat (String "*" pat) n'
       end.
Proof. by destruct n. Qed.

Lemma no_wildcard_cons ch lit :
  no_wildcard (String ch lit) = true →
  ch ≠ "*"%char ∧ ch ≠ "?"%char ∧ no_wildcard lit = true.
Proof.
  simpl. rewrite !andb_true_iff, !negb_true_iff.
  intros [[Hs Ha] Hl]. by apply Ascii.eqb_neq in Hs, Ha.
Qed.

(** Without wildcards a pattern selects its own text and nothing else. *)
Lemma fnmatch_no_wildcard lit n :
  no_wildcard lit = true → Py.fnmatchcase_pat lit n = true ↔ n = lit.
Proof.
  revert n. induction lit as [|ch lit IH]; intros n Hlit.
  - apply String.eqb_eq.
  - apply no_wildcard_cons in Hlit as (Hs & Ha & Hl).
    rewrite fnmatchcase_pat_literal by done.
    destruct n as [|d n]; [done|].
    rewrite andb_true_iff, Ascii.eqb_eq, IH by done.
    split; [by intros [-> ->] | by intros [= -> ->]].
Qed.

Lemma fnmatch_literal_prefix lit pat n :
  no_wildcard lit = true →
  Py.fnmatchcase_pat (lit +:+ pat) n = true
  ↔ ∃ n', n = lit +:+ n' ∧ Py.fnmatchcase_pat pat n' = true.
Proof.
  revert n. induction lit as [|ch lit IH]; intros n Hlit.
  - rewrite app_empty_l. split; [by exists n | by intros (n' & -> & Hm)].
  - apply no_wildcard_cons in Hlit as (Hs & Ha & Hl).
    rewrite app_cons, fnmatchcase_pat_literal by done.
    destruct n as [|d n]; [split; [done | by intros (n' & [=] & _)]|].
    rewrite andb_true_iff, Ascii.eqb_eq, IH by done. split.
    + intros [-> (n' & -> & Hm)]. by exists n'.
    + intros (n' & Heq & Hm). rewrite app_cons in Heq.
      injection Heq as -> ->. split; [done | by exists n'].
Qed.

Lemma fnmatch_star_suffix lit n :
  no_wildcard lit = true →
  Py.fnmatchcase_pat (String "*" lit) n = true ↔ ∃ mid, n = mid +:+ lit.
Proof.
  intros Hlit. induction n as [|d n IH].
  - rewrite fnmatchcase_pat_star, orb_false_r, fnmatch_no_wildcard by done.
    split.
    + intros <-. by exists "".
    + intros [mid Hmid]. destruct mid as [|e mid]; [done|].
      by rewrite app_cons in Hmid.
  - rewrite fnmatchcase_pat_star, orb_true_iff, fnmatch_no_wildcard, IH
      by done.
    split.
    + intros [-> | [mid ->]]; [by exists "" | by exists (String d mid)].
    + intros [mid Hmid]. destruct mid as [|e mid].
      * left. by rewrite app_empty_l in Hmid.
      * right. rewrite app_cons in Hmid. injection Hmid as -> ->.
        by exists mid.
Qed.

Lemma fnmatch_prefix_star_suffix (pre suf : string) n :
  no_wildcard pre = true → no_wildcard suf = true →
  Py.fnmatchcase n (pre +:+ String "*" suf) = true
  ↔ ∃ mid, n = pre +:+ mid +:+ suf.
Proof.
  intros Hpre Hsuf. unfold Py.fnmatchcase.
  rewrite fnmatch_literal_prefix by done. split.
  - intros (n' & -> & [mid ->]%fnmatch_star_suffix); [by exists mid | done].
  - intros [mid ->]. exists (mid +:+ suf). split; [done|].
    apply fnmatch_star_suffix; [done | by exists mid].
Qed.

Lemma script_patterns_cmake n :
  Py.fnmatchcase n "cmake/*.cmake" = true
  ↔ ∃ mid, n = "cmake/" +:+ mid +:+ ".cmake".
Proof. by apply (fnmatch_prefix_star_suffix "cmake/" ".cmake"). Qed.

Lemma script_patterns_conf n :
  Py.fnmatchcase n "cmake/*.conf" = true
  ↔ ∃ mid, n = "cmake/" +:+ mid +:+ ".conf".
Proof. by apply (fnmatch_prefix_star_suffix "cmake/" ".conf"). Qed.

(** X9: the script patterns of [package] select the names that, in lower case,
    start with [cmake/] and end with [.cmake] or [.conf]: whatever lies in
    between, separators included, so scripts in folders below [cmake] are
    packaged too, at their nested relative name. *)
Theorem script_patterns_select rel :
  (Py.fnmatchcase (Py.lower rel) (Py.lower "cmake/*.cmake") = true
   ↔ ∃ mid, Py.lower rel = "cmake/" +:+ mid +:+ ".cmake")
  ∧ (Py.fnmatchcase (Py.lower rel) (Py.lower "cmake/*.conf") = true
     ↔ ∃ mid, Py.lower rel = "cmake/" +:+ mid +:+ ".conf").
Proof.
  split; [apply script_patterns_cmake | apply script_patterns_conf].
Qed.

(** X10: everything [package] copies was exported with the recipe: a name
    selected by one of its three patterns is selected by a pattern of
    [exports_sources]. *)
Theorem package_patterns_exported rel :
  Py.fnmatchcase (Py.lower rel) (Py.lower "LICENSE") = true
  ∨ Py.fnmatchcase (Py.lower rel) (Py.lower "cmake/*.cmake") = true
  ∨ Py.fnmatchcase (Py.lower rel) (Py.lower "cmake/*.conf") = true →
  ∃ pat,
    pat ∈ exports_sources
    ∧ Py.fnmatchcase (Py.lower rel) (Py.lower pat) = true.
Proof.
  assert (Hcmake : ∀ mid suf,
    Py.lower rel = "cmake/" +:+ mid +:+ suf →
    ∃ pat, pat ∈ exports_sources
           ∧ Py.fnmatchcase (Py.lower rel) (Py.lower pat) = true).
  { intros mid suf Heq. exists "cmake/*".
    split; [apply list_elem_of_here|].
    apply (fnmatch_prefix_star_suffix "cmake/" ""); [done | done |].
    exists (mid +:+ suf). by rewrite app_empty_r. }
  intros [Hlic | [Hm | Hm]].
  - exists "LICENSE". split; [|done].
    apply list_elem_of_further, list_elem_of_here.
  - apply script_patterns_cmake in Hm as [mid Hmid]. by eapply Hcmake.
  - apply script_patterns_conf in Hm as [mid Hmid]. by eapply Hcmake.
Qed.

Lemma package_patterns_exported_witness :
  (Py.fnmatchcase (Py.lower "cmake/clang-tidy.conf") (Py.lower "LICENSE")
   = true
   ∨ Py.fnmatchcase (Py.lower "cmake/clang-tidy.conf")
       (Py.lower "cmake/*.cmake") = true
   ∨ Py.fnmatchcase (Py.lower "cmake/clang-tidy.conf")
       (Py.lower "cmake/*.conf") = true)
  ∧ ∃ pat,
    pat ∈ exports_sources
    ∧ Py.fnmatchcase (Py.lower "cmake/clang-tidy.conf") (Py.lower pat) = true.
Proof.
  assert (Hm : Py.fnmatchcase (Py.lower "cmake/clang-tidy.conf")
                 (Py.lower "LICENSE") = true
               ∨ Py.fnmatchcase (Py.lower "cmake/clang-tidy.conf")
                   (Py.lower "cmake/*.cmake") = true
               ∨ Py.fnmatchcase (Py.lower "cmake/clang-tidy.conf")
                   (Py.lower "cmake/*.conf") = true)
    by (right; right; vm_compute; reflexivity).
  split; [exact Hm|].
  exact (package_patterns_exported "cmake/clang-tidy.conf" Hm).
Defined.

End patterns.

(** ** What [package_info] publishes, and what it leaves alone *)

Section publishing.
Implicit Types (self : ConanFile) (s : State) (fs : gmap string string).
Implicit Types (rel p : string).

Lemma package_info_publishes_names self s :
  ∃ s',
    package_info self s = Returned tt s'
    ∧ publishList s'
      = publishList s
        ++ (Py.path_join (package_folder self) <$> published_names self)
    ∧ files s' = files s.
Proof.
  destruct (package_info_returns self s)
    as (s' & Hrun & Hpub & _ & _ & Hfiles & _).
  exists s'. split; [done|]. split; [|done]. rewrite Hpub.
  unfold published_names.
  by destruct (add_build_outputs _), (optimize_debug_build _).
Qed.

(** Every published name is a script name, relative, below [cmake]. *)
Lemma published_names_scripts self rel :
  rel ∈ published_names self →
  Py.startswith rel "/" = false
  ∧ Py.fnmatchcase (Py.lower rel) "cmake/*.cmake" = true
  ∧ ∃ name, rel = "cmake/" +:+ name.
Proof.
  unfold published_names.
  destruct (add_build_outputs _), (optimize_debug_build _); simpl;
    rewrite ?elem_of_cons, elem_of_nil;
    intros Hin; repeat destruct Hin as [->|Hin]; try done;
    (split; [done|]); (split; [done|]); by eexists.
Qed.

Lemma published_names_NoDup self : NoDup (published_names self).
Proof.
  unfold published_names.
  destruct (add_build_outputs _), (optimize_debug_build _);
    by apply (bool_decide_unpack _).
Qed.

(** X11: [package_info] leaves everything but the [user_toolchain] list alone:
    the values published under any other name, [self.info], the file system
    and the record of copies are what they were. *)
Theorem package_info_touches_only_user_toolchain self s :
  ∃ s',
    package_info self s = Returned tt s'
    ∧ (∀ name, name ≠ user_toolchain →
               conf_info s' !! name = conf_info s !! name)
    ∧ info s' = info s
    ∧ files s' = files s
    ∧ copy_calls s' = copy_calls s.
Proof.
  destruct (package_info_returns self s)
    as (s' & Hrun & _ & Hconf & _ & Hfiles & Hcalls & Hinfo).
  by exists s'.
Qed.

(** X12: one run of [package_info] publishes between two and four fragments,
    pairwise different, each a path below the [cmake] folder of the package
    folder, the last being [cmake/build.cmake] whatever the options and
    whatever was published before. *)
Theorem package_info_fragments self s :
  ∃ s' added,
    package_info self s = Returned tt s'
    ∧ publishList s' = publishList s ++ added
    ∧ NoDup added
    ∧ 2 ≤ length added ≤ 4
    ∧ last (publishList s')
      = Some (Py.path_join (package_folder self) "cmake/build.cmake")
    ∧ ∀ p, p ∈ added →
           ∃ name, p = Py.path_join (package_folder self) ""
                       +:+ "cmake/" +:+ name.
Proof.
  destruct (package_info_publishes_names self s) as (s' & Hrun & Hpub & _).
  exists s', (Py.path_join (package_folder self) <$> published_names self).
  split; [done|]. split; [done|]. split; [|split; [|split]].
  - apply NoDup_fmap_2_strong; [|apply published_names_NoDup].
    intros x y [Hx _]%published_names_scripts [Hy _]%published_names_scripts.
    by apply path_join_inj.
  - rewrite length_fmap. unfold published_names.
    destruct (add_build_outputs _), (optimize_debug_build _); simpl; lia.
  - rewrite Hpub. unfold published_names.
    destruct (add_build_outputs _), (optimize_debug_build _); simpl;
      by rewrite last_app_cons.
  - intros p [rel [-> Hrel]]%list_elem_of_fmap.
    apply published_names_scripts in Hrel as (Hs & _ & name & ->).
    exists name. by rewrite path_join_relative.
Qed.

Lemma resolveManifest_packaged self fs :
  disjoint_trees self →
  ∃ s',
    resolveManifest self fs = Returned tt s'
    ∧ publishList s'
      = Py.path_join (package_folder self) <$> published_names self
    ∧ files s' = files (packaged self (initial_state self fs)).
Proof.
  intros Hd. unfold resolveManifest, mbind, M_bind.
  rewrite package_packaged by done.
  destruct (package_info_publishes_names self
              (packaged self (initial_state self fs)))
    as (s' & -> & Hpub & Hfiles).
  exists s'. split; [done|]. split; [|done]. rewrite Hpub.
  unfold publishList at 1. simpl. by rewrite lookup_empty.
Qed.

(** X13: the manifest is consistent when the scripts are there: between disjoint
    source and package trees, if the source tree holds every script that
    the option values make [package_info] publish, then each path
    [resolveManifest] publishes is a file of the package, with the contents
    of the script it names. *)
Theorem resolveManifest_publishes_installed self fs :
  disjoint_trees self →
  (∀ rel, rel ∈ published_names self →
          is_Some (fs !! (Py.path_join (source_folder self) "" +:+ rel))) →
  ∃ s',
    resolveManifest self fs = Returned tt s'
    ∧ ∀ p, p ∈ publishList s' →
           ∃ rel,
             p = Py.path_join (package_folder self) rel
             ∧ is_Some (files s' !! p)
             ∧ files s' !! p
               = fs !! (Py.path_join (source_folder self) "" +:+ rel).
Proof.
  intros Hd Hthere.
  destruct (resolveManifest_packaged self fs Hd) as (s' & Hrun & Hpub & Hf).
  exists s'. split; [done|]. rewrite Hpub, Hf.
  intros p [rel [-> Hrel]]%list_elem_of_fmap. exists rel. split; [done|].
  destruct (Hthere rel Hrel) as [c Hc].
  apply published_names_scripts in Hrel as (_ & Hm & _).
  rewrite Hc.
  rewrite (packaged_script self (initial_state self fs) rel c Hd);
    [by split; [eexists|] | by left | done].
Qed.

Lemma resolveManifest_publishes_installed_witness :
  disjoint_trees sample_self
  ∧ (∀ rel, rel ∈ published_names sample_self →
            is_Some (full_tree
                       !! (Py.path_join (source_folder sample_self) ""
                           +:+ rel)))
  ∧ ∃ s',
    resolveManifest sample_self full_tree = Returned tt s'
    ∧ ∀ p, p ∈ publishList s' →
           ∃ rel,
             p = Py.path_join (package_folder sample_self) rel
             ∧ is_Some (files s' !! p)
             ∧ files s' !! p
               = full_tree
                   !! (Py.path_join (source_folder sample_self) "" +:+ rel).
Proof.
  assert (Hd : disjoint_trees sample_self)
    by (intros r1 r2; vm_compute; discriminate).
  assert (Hthere : ∀ rel, rel ∈ published_names sample_self →
            is_Some (full_tree
                       !! (Py.path_join (source_folder sample_self) ""
                           +:+ rel))).
  { intros rel Hrel. vm_compute in Hrel.
    apply elem_of_cons in Hrel as [->|Hrel]; [vm_compute; eauto|].
    apply elem_of_cons in Hrel as [->|Hrel]; [vm_compute; eauto|].
    apply elem_of_cons in Hrel as [->|Hrel]; [vm_compute; eauto|].
    by apply elem_of_nil in Hrel. }
  split; [exact Hd|]. split; [exact Hthere|].
  exact (resolveManifest_publishes_installed sample_self full_tree Hd Hthere).
Defined.

(** X14: [package_info] does not look at the file system: a fragment the option
    values call for is published even when the source tree has no such
    script, and then, between disjoint trees and unless the package folder
    already held it, the published path names no file. *)
Theorem resolveManifest_publishes_unchecked self fs rel :
  disjoint_trees self →
  rel ∈ published_names self →
  fs !! (Py.path_join (source_folder self) "" +:+ rel) = None →
  fs !! Py.path_join (package_folder self) rel = None →
  ∃ s',
    resolveManifest self fs = Returned tt s'
    ∧ Py.path_join (package_folder self) rel ∈ publishList s'
    ∧ files s' !! Py.path_join (package_folder self) rel = None.
Proof.
  intros Hd Hrel Hsrc Hpkg.
  destruct (resolveManifest_packaged self fs Hd) as (s' & Hrun & Hpub & Hf).
  exists s'. split; [done|]. rewrite Hpub, Hf.
  split; [by apply list_elem_of_fmap_2|].
  apply published_names_scripts in Hrel as (Hs & _ & name & Hname).
  destruct (files _ !! _) as [c|] eqn:Hq; [|done].
  apply (packaged_provenance _ _ _ _ Hd) in Hq
    as [Hold|[(rel' & _ & Hs' & Heq & _)|(rel' & _ & Hs' & Heq & Hfs)]].
  - simpl in Hold. congruence.
  - rewrite path_join_licenses_rel in Heq by done.
    apply path_join_inj in Heq; [|done|done].
    rewrite Hname, !app_cons in Heq. discriminate.
  - apply path_join_inj in Heq as <-; [|done|done].
    simpl in Hfs. congruence.
Qed.

Lemma resolveManifest_publishes_unchecked_witness :
  disjoint_trees sample_self
  ∧ "cmake/build.cmake" ∈ published_names sample_self
  ∧ (∅ : gmap string string)
      !! (Py.path_join (source_folder sample_self) "" +:+ "cmake/build.cmake")
    = None
  ∧ (∅ : gmap string string)
      !! Py.path_join (package_folder sample_self) "cmake/build.cmake"
    = None
  ∧ ∃ s',
    resolveManifest sample_self ∅ = Returned tt s'
    ∧ Py.path_join (package_folder sample_self) "cmake/build.cmake"
      ∈ publishList s'
    ∧ files s' !! Py.path_join (package_folder sample_self)
                    "cmake/build.cmake" = None.
Proof.
  assert (Hd : disjoint_trees sample_self)
    by (intros r1 r2; vm_compute; discriminate).
  assert (Hrel : "cmake/build.cmake" ∈ published_names sample_self)
    by (vm_compute; apply list_elem_of_further, list_elem_of_further,
          list_elem_of_here).
  split; [exact Hd|]. split; [exact Hrel|].
  split; [reflexivity|]. split; [reflexivity|].
  exact (resolveManifest_publishes_unchecked sample_self ∅
           "cmake/build.cmake" Hd Hrel eq_refl eq_refl).
Defined.

End publishing.

(** ** Further properties of [package] and of the option schema *)

Section more.
Implicit Types (self : ConanFile) (s : State) (rel q c k : string).

Lemma copy_done_keeps_files pattern src dst s q :
  is_Some (files s !! q) →
  is_Some (files (copy_done pattern src dst s) !! q).
Proof.
  intros [c Hc]. simpl. rewrite lookup_union.
  destruct (list_to_map _ !! q) as [c'|]; rewrite Hc; by eexists.
Qed.

(** X7: [package] deletes nothing: whether it returns or raises, every file
    that was there before is still there, so what an earlier run left in
    the package folder stays unless a copy writes over it. *)
Theorem package_never_deletes self s q :
  is_Some (files s !! q) →
  is_Some (files (final_state (package self s)) !! q).
Proof.
  intros Hq.
  destruct (package_outcome self s)
    as [(_ & _ & ->)|[(_ & e & ->)|(_ & _ & e & ->)]]; simpl final_state.
  - by do 3 apply copy_done_keeps_files.
  - done.
  - by apply copy_done_keeps_files.
Qed.

Lemma package_never_deletes_witness :
  is_Some (files (initial_state sample_self sample_tree)
             !! "/cache/s/README.md")
  ∧ is_Some (files (final_state (package sample_self
                                   (initial_state sample_self sample_tree)))
               !! "/cache/s/README.md").
Proof.
  assert (Hq : is_Some (files (initial_state sample_self sample_tree)
                          !! "/cache/s/README.md"))
    by (vm_compute; eauto).
  split; [exact Hq|].
  exact (package_never_deletes sample_self
           (initial_state sample_self sample_tree) "/cache/s/README.md" Hq).
Defined.

(** X8: the license is found whatever the case of its name: [copy] compares
    names in lower case, so between disjoint source and package trees a
    source file whose name is [LICENSE] up to case is packaged below
    [licenses] under the name it has in the source tree. *)
Theorem package_license_any_case self s rel c :
  disjoint_trees self →
  Py.lower rel = "license" →
  files s !! (Py.path_join (source_folder self) "" +:+ rel) = Some c →
  ∃ s',
    package self s = Returned tt s'
    ∧ files s' !! Py.path_join
                    (Py.path_join (package_folder self) "licenses") rel
      = Some c.
Proof.
  intros Hd Hlow Hfs. exists (packaged self s).
  split; [by apply package_packaged|].
  apply packaged_license; [done | by rewrite Hlow | done].
Qed.

Lemma package_license_any_case_witness :
  disjoint_trees sample_self
  ∧ Py.lower "LICENSE" = "license"
  ∧ files (initial_state sample_self sample_tree)
      !! (Py.path_join (source_folder sample_self) "" +:+ "LICENSE")
    = Some "Apache-2.0"
  ∧ ∃ s',
    package sample_self (initial_state sample_self sample_tree)
    = Returned tt s'
    ∧ files s' !! Py.path_join
                    (Py.path_join (package_folder sample_self) "licenses")
                    "LICENSE"
      = Some "Apache-2.0".
Proof.
  assert (Hd : disjoint_trees sample_self)
    by (intros r1 r2; vm_compute; discriminate).
  split; [exact Hd|]. split; [reflexivity|]. split; [reflexivity|].
  exact (package_license_any_case sample_self
           (initial_state sample_self sample_tree) "LICENSE" "Apache-2.0"
           Hd eq_refl eq_refl).
Defined.

(** X15: the option schema is consistent: [options] and [default_options]
    declare the same names, and the default of each option is one of the
    values [options] allows for it. *)
Theorem default_options_in_domain :
  dom default_options = dom options
  ∧ ∀ k v, default_options !! k = Some v →
           ∃ allowed, options !! k = Some allowed ∧ v ∈ allowed.
Proof.
  split; [apply dom_default_options|].
  intros k v. unfold default_options, options.
  intros [[<- <-]|[_ [<- <-]%lookup_singleton_Some]]%lookup_insert_Some.
  - eexists. split; [by rewrite lookup_insert_eq|]. apply list_elem_of_here.
  - eexists. split; [|apply list_elem_of_here].
    by rewrite lookup_insert_ne, lookup_singleton_eq.
Qed.

End more.
